(** * Skip-song prediction: the synthetic data generator and its sequence loader

    A shallow embedding of [src/generate_dataset.py] (the import of the
    dashboard, entity generators, event expander, joins, skip-probability
    model, outcome sampler), of [src/sequence_dataset.py] (session windows and
    their collation) and of the filters of [src/streamlit_app.py], with the
    properties the specification states about them.

    Python [float] is IEEE-754 binary64; it is modelled by Rocq's primitive
    [float], whose literals are rounded to the nearest double exactly as
    Python's are.  Python [int] is modelled by [Z]. *)

From Stdlib Require Import ZArith String Bool Floats Lia List.
From Stdlib Require Import Permutation Sorted.
Import ListNotations.

Set Warnings "-inexact-float".

Local Open Scope string_scope.
Local Open Scope Z_scope.

(** ** Table cells and rows *)

Module Frame.

(** An entry of an object column that came through a left join: a Python
    string, or the missing marker pandas fills in for an unmatched row. *)
Inductive cell : Type :=
| Str (s : string)
| Missing.

(** [c == s] for a cell [c] and a string literal [s]; the missing marker is
    equal to no string. *)
Definition cell_eqb (c : cell) (s : string) : bool :=
  match c with
  | Str t => String.eqb t s
  | Missing => false
  end.

(** [c in [s1, ..., sn]]. *)
Definition cell_in (c : cell) (l : list string) : bool :=
  existsb (cell_eqb c) l.

(** The enriched event row: the event's own columns, then the user's and the
    track's columns as the two left joins attach them. *)
Record Row : Type := mkRow {
  session_id : Z;
  user_id : Z;
  position : Z;
  time_of_day : string;
  day_type : string;
  location : string;
  track_id : Z;
  age_group : cell;
  gender : cell;
  country : cell;
  subscription : cell;
  platform : cell;
  skip_tendency : cell;
  genre : cell;
  popularity : option Z;
  acousticness : float;
  danceability : float;
  energy : float;
  tempo : option Z;
  duration_sec : option Z
}.

Definition with_skip_tendency (t : cell) (r : Row) : Row :=
  mkRow (session_id r) (user_id r) (position r) (time_of_day r) (day_type r)
        (location r) (track_id r) (age_group r) (gender r) (country r)
        (subscription r) (platform r) t (genre r) (popularity r)
        (acousticness r) (danceability r) (energy r) (tempo r) (duration_sec r).

End Frame.

(** ** The skip-probability model *)

Module SkipModel.
Import Frame.

Local Open Scope float_scope.

(** Python's [min(a, b)] on two arguments: [b] when [b < a], else [a]. *)
Definition py_min (a b : float) : float := if PrimFloat.ltb b a then b else a.

(** Python's [max(a, b)] on two arguments: [b] when [b > a], else [a]. *)
Definition py_max (a b : float) : float := if PrimFloat.ltb a b then b else a.

(** The value of [p] when [compute_skip_probability] reaches its [return]:
    the baseline and every adjustment whose test fired, added in source
    order. *)
Definition skip_score (row : Row) : float :=
  let p := 0.25 in
  let p := if cell_eqb (skip_tendency row) "high" then p + 0.25
           else if cell_eqb (skip_tendency row) "medium" then p + 0.10
           else p in
  let p := if cell_in (age_group row) ["13-17"; "18-24"]%string then p + 0.05 else p in
  let p := if cell_eqb (subscription row) "free" then p + 0.10 else p in
  let p := if cell_eqb (country row) "LATAM" then p + 0.08 else p in
  let p := if cell_eqb (country row) "EU_UK" then p - 0.05 else p in
  let p := if String.eqb (time_of_day row) "morning" then p - 0.05 else p in
  let p := if String.eqb (location row) "gym" then p + 0.10 else p in
  let p := if String.eqb (day_type row) "weekend" then p + 0.05 else p in
  let p := if cell_in (genre row) ["pop"; "latin"]%string then p - 0.05 else p in
  let p := if cell_in (genre row) ["classical"; "jazz"]%string then p + 0.10 else p in
  let p := if PrimFloat.ltb (energy row) 0.3 then p + 0.05 else p in
  let p := if PrimFloat.ltb 0.7 (danceability row) then p - 0.05 else p in
  p.

(** [compute_skip_probability(row)]: the score clamped by
    [max(0, min(1, p))].  The integer bounds [0] and [1] of the source are
    the doubles [0.0] and [1.0] in the float column the result is stored in. *)
Definition compute_skip_probability (row : Row) : float :=
  py_max 0 (py_min 1 (skip_score row)).

End SkipModel.

(** ** Outcomes of a run, and the generator the run draws from *)

Module Run.

(** A Python computation either produces a value or raises. *)
Inductive outcome (A : Type) : Type :=
| Ok (a : A)
| Error (msg : string).
Arguments Ok {A} a.
Arguments Error {A} msg.

(** The interface of [numpy.random.Generator] the program uses.  A state is
    the generator object [RNG]; each method returns its sample and the
    advanced state.  Sizes are already checked to be non-negative. *)
Class Generator : Type := {
  rng_state : Type;
  default_rng : Z -> rng_state;
  rng_choice : list string -> list float -> nat -> rng_state -> list string * rng_state;
  rng_integers : Z -> Z -> nat -> rng_state -> list Z * rng_state;
  rng_random : nat -> rng_state -> list float * rng_state
}.

(** What numpy documents about these methods: [size] samples are returned,
    [choice] returns elements of [a], [integers] values in [low, high), and
    [random] doubles in [0, 1). *)
Record GeneratorLaws (RNG : Generator) : Prop := {
  choice_length : forall a p n g, a <> [] -> length (fst (rng_choice a p n g)) = n;
  choice_in : forall a p n g x, a <> [] -> In x (fst (rng_choice a p n g)) -> In x a;
  integers_length : forall lo hi n g, lo < hi -> length (fst (rng_integers lo hi n g)) = n;
  integers_range : forall lo hi n g x, lo < hi ->
      In x (fst (rng_integers lo hi n g)) -> lo <= x < hi;
  random_length : forall n g, length (fst (rng_random n g)) = n;
  random_range : forall n g x, In x (fst (rng_random n g)) ->
      PrimFloat.leb 0 x = true /\ PrimFloat.ltb x 1 = true
}.

(** The dashboard module as the generator script meets it: the CSV file it
    reads when it is imported, and what the rest of the module does with the
    file, which ends normally or raises. *)
Class DashboardModule : Type := {
  csv_file : Type;
  render : csv_file -> outcome unit
}.

Section Monad.
Context {RNG : Generator}.

(** Code that uses the module-level [RNG]: the generator state is threaded,
    and an exception ends the run. *)
Definition M (A : Type) : Type := rng_state -> outcome (A * rng_state).

Definition ret {A} (a : A) : M A := fun g => Ok (a, g).

Definition bind {A B} (m : M A) (k : A -> M B) : M B :=
  fun g => match m g with
           | Ok (a, g') => k a g'
           | Error msg => Error msg
           end.

Definition lift {A} (o : outcome A) : M A :=
  fun g => match o with
           | Ok a => Ok (a, g)
           | Error msg => Error msg
           end.

(** [RNG.choice(a, size=size, p=p)]. *)
Definition choice (a : list string) (size : Z) (p : list float) : M (list string) :=
  fun g => if size <? 0 then Error "negative dimensions are not allowed"
           else match a with
                | [] => Error "a cannot be empty unless no samples are taken"
                | _ => Ok (rng_choice a p (Z.to_nat size) g)
                end.

(** [RNG.integers(low, high, size=size)].  For a size of zero numpy returns
    the empty array at once, before it looks at the bounds and without
    drawing; otherwise it checks the bounds, and a negative size fails when
    the array is allocated. *)
Definition integers (low high : Z) (size : Z) : M (list Z) :=
  fun g => if size =? 0 then Ok ([], g)
           else if high <=? low then Error "low >= high"
           else if size <? 0 then Error "negative dimensions are not allowed"
           else Ok (rng_integers low high (Z.to_nat size) g).

(** [RNG.random(size=size)] and [RNG.random(size)]. *)
Definition random (size : Z) : M (list float) :=
  fun g => if size <? 0 then Error "negative dimensions are not allowed"
           else Ok (rng_random (Z.to_nat size) g).

End Monad.

Declare Scope run_scope.
Delimit Scope run_scope with run.
Notation "x <- c ;; k" := (bind c (fun x => k))
  (at level 61, c at next level, right associativity) : run_scope.

(** [np.arange(lo, hi)] on integers. *)
Definition arange (lo hi : Z) : list Z :=
  map (fun i => lo + Z.of_nat i) (seq 0 (Z.to_nat (hi - lo))).

(** [range(n)]. *)
Definition range (n : Z) : list Z :=
  map Z.of_nat (seq 0 (Z.to_nat n)).

(** The length check [pd.DataFrame] makes on the columns of a dict. *)
Definition same_length (n : nat) (others : list nat) : bool :=
  forallb (Nat.eqb n) others.

Definition frame_error : string := "All arrays must be of the same length".

End Run.

(** ** Entity tables *)

Module User.
Record t : Type := mk {
  user_id : Z;
  age_group : string;
  gender : string;
  country : string;
  subscription : string;
  platform : string;
  skip_tendency : string
}.
End User.

Module Track.
Record t : Type := mk {
  track_id : Z;
  genre : string;
  popularity : Z;
  acousticness : float;
  danceability : float;
  energy : float;
  tempo : Z;
  duration_sec : Z
}.
End Track.

Module Session.
Record t : Type := mk {
  session_id : Z;
  user_id : Z;
  time_of_day : string;
  day_type : string;
  location : string;
  session_length : Z
}.
End Session.

Module Event.
Record t : Type := mk {
  session_id : Z;
  user_id : Z;
  position : Z;
  time_of_day : string;
  day_type : string;
  location : string
}.
End Event.

(** ** The generator script, [generate_dataset.py] *)

Module Generate.
Import Run.

Local Open Scope float_scope.

Definition AGE_GROUPS : list string := ["13-17"; "18-24"; "25-34"; "35-44"; "45+"]%string.
Definition AGE_WEIGHTS : list float := [0.10; 0.35; 0.30; 0.15; 0.10].

Definition GENDERS : list string := ["female"; "male"; "non_binary"]%string.
Definition GENDER_WEIGHTS : list float := [0.48; 0.48; 0.04].

Definition COUNTRIES : list string := ["NA"; "EU_UK"; "LATAM"; "ASIA"; "AFRICA"]%string.
Definition COUNTRY_WEIGHTS : list float := [0.20; 0.35; 0.20; 0.20; 0.05].

Definition SUB_TYPES : list string := ["free"; "premium"; "family"; "student"]%string.
Definition SUB_WEIGHTS : list float := [0.45; 0.35; 0.10; 0.10].

Definition PLATFORMS : list string := ["ios"; "android"; "desktop"; "web"]%string.
Definition PLATFORM_WEIGHTS : list float := [0.40; 0.40; 0.15; 0.05].

Definition SKIP_TENDENCY : list string := ["low"; "medium"; "high"]%string.
Definition SKIP_WEIGHTS : list float := [0.30; 0.50; 0.20].

Definition GENRES : list string :=
  ["pop"; "hiphop"; "electronic"; "rock"; "latin"; "classical"; "indie"; "jazz"]%string.
Definition GENRE_WEIGHTS : list float := [0.25; 0.20; 0.15; 0.15; 0.10; 0.05; 0.07; 0.03].

Definition TIME_OF_DAY : list string := ["morning"; "afternoon"; "evening"; "night"]%string.
Definition TOD_WEIGHTS : list float := [0.20; 0.35; 0.30; 0.15].

Definition DAY_TYPE : list string := ["weekday"; "weekend"]%string.
Definition DAY_WEIGHTS : list float := [0.70; 0.30].

Definition LOCATIONS : list string := ["home"; "commute"; "work"; "gym"]%string.
Definition LOC_WEIGHTS : list float := [0.50; 0.25; 0.20; 0.05].

Local Close Scope float_scope.

(** The dataset dimensions, module-level constants of the script. *)
Record Dims : Type := mkDims {
  N_USERS : Z;
  N_TRACKS : Z;
  N_SESSIONS : Z
}.

Definition source_dims : Dims := mkDims 2000 5000 20000.
Definition source_seed : Z := 42.

(** [pd.DataFrame({...})] for the seven columns of the Users table. *)
Definition users_frame (ids : list Z) (ag ge co su pl st : list string)
  : outcome (list User.t) :=
  if same_length (length ids)
       [length ag; length ge; length co; length su; length pl; length st]
  then Ok (map (fun '(i, (a, (g, (c, (s, (p, t)))))) => User.mk i a g c s p t)
             (combine ids (combine ag (combine ge (combine co (combine su
               (combine pl st)))))))
  else Error frame_error.

(** [pd.DataFrame({...})] for the eight columns of the Tracks table. *)
Definition tracks_frame (ids : list Z) (ge : list string) (po : list Z)
    (ac da en : list float) (te du : list Z) : outcome (list Track.t) :=
  if same_length (length ids)
       [length ge; length po; length ac; length da; length en; length te; length du]
  then Ok (map (fun '(i, (g, (p, (a, (d, (e, (t, u))))))) => Track.mk i g p a d e t u)
             (combine ids (combine ge (combine po (combine ac (combine da
               (combine en (combine te du))))))))
  else Error frame_error.

(** [pd.DataFrame({...})] for the six columns of the Sessions table. *)
Definition sessions_frame (ids us : list Z) (td dt lo : list string) (sl : list Z)
  : outcome (list Session.t) :=
  if same_length (length ids)
       [length us; length td; length dt; length lo; length sl]
  then Ok (map (fun '(i, (u, (t, (d, (l, n))))) => Session.mk i u t d l n)
             (combine ids (combine us (combine td (combine dt (combine lo sl))))))
  else Error frame_error.

Section WithGenerator.
Context {RNG : Generator}.
Local Open Scope run_scope.

(** [generate_users(n_users)].  The values of the dict are evaluated, and so
    the generator is consumed, in the order the keys are written. *)
Definition generate_users (n_users : Z) : M (list User.t) :=
  let ids := arange 1 (n_users + 1) in
  ag <- choice AGE_GROUPS n_users AGE_WEIGHTS ;;
  ge <- choice GENDERS n_users GENDER_WEIGHTS ;;
  co <- choice COUNTRIES n_users COUNTRY_WEIGHTS ;;
  su <- choice SUB_TYPES n_users SUB_WEIGHTS ;;
  pl <- choice PLATFORMS n_users PLATFORM_WEIGHTS ;;
  st <- choice SKIP_TENDENCY n_users SKIP_WEIGHTS ;;
  lift (users_frame ids ag ge co su pl st).

(** [generate_tracks(n_tracks)]. *)
Definition generate_tracks (n_tracks : Z) : M (list Track.t) :=
  let ids := arange 1 (n_tracks + 1) in
  ge <- choice GENRES n_tracks GENRE_WEIGHTS ;;
  po <- integers 0 101 n_tracks ;;
  ac <- random n_tracks ;;
  da <- random n_tracks ;;
  en <- random n_tracks ;;
  te <- integers 60 181 n_tracks ;;
  du <- integers 120 360 n_tracks ;;
  lift (tracks_frame ids ge po ac da en te du).

(** [generate_sessions(n_sessions)]; it reads the global [N_USERS]. *)
Definition generate_sessions (d : Dims) (n_sessions : Z) : M (list Session.t) :=
  let ids := arange 1 (n_sessions + 1) in
  us <- integers 1 (N_USERS d + 1) n_sessions ;;
  td <- choice TIME_OF_DAY n_sessions TOD_WEIGHTS ;;
  dt <- choice DAY_TYPE n_sessions DAY_WEIGHTS ;;
  lo <- choice LOCATIONS n_sessions LOC_WEIGHTS ;;
  sl <- integers 5 40 n_sessions ;;
  lift (sessions_frame ids us td dt lo sl).

End WithGenerator.

(** [expand_sessions_to_events(sessions_df)]: the two nested loops, each
    iteration appending one dict to [rows]. *)
Definition expand_sessions_to_events (sessions_df : list Session.t) : list Event.t :=
  fold_left
    (fun rows row =>
       let session_id := Session.session_id row in
       let n_events := Session.session_length row in
       fold_left
         (fun rows pos =>
            (rows ++ [Event.mk session_id (Session.user_id row) (pos + 1)
                        (Session.time_of_day row) (Session.day_type row)
                        (Session.location row)])%list)
         (range n_events) rows)
    sessions_df [].

(** The events table once [assign_tracks] has added its [track_id] column. *)
Definition TrackedEvent : Type := (Event.t * Z)%type.

(** [events_df["track_id"] = track_ids]: the column must be as long as the
    table. *)
Definition set_track_id (events_df : list Event.t) (track_ids : list Z)
  : outcome (list TrackedEvent) :=
  if Nat.eqb (length track_ids) (length events_df)
  then Ok (combine events_df track_ids)
  else Error "Length of values does not match length of index".

(** [left.merge(right, on=key, how="left")]: the rows of [left] in order,
    each paired with every row of [right] carrying its key, in the order of
    [right]; a row of [left] with no partner is kept once, with the columns of
    [right] missing. *)
Definition merge_left {L R O : Type} (key_l : L -> Z) (key_r : R -> Z)
    (join : L -> option R -> O) (left : list L) (right : list R) : list O :=
  flat_map
    (fun l =>
       match filter (fun r => key_r r =? key_l l) right with
       | [] => [join l None]
       | partners => map (fun r => join l (Some r)) partners
       end)
    left.

Definition user_cell (u : option User.t) (col : User.t -> string) : Frame.cell :=
  match u with
  | Some u => Frame.Str (col u)
  | None => Frame.Missing
  end.

Definition track_cell (t : option Track.t) (col : Track.t -> string) : Frame.cell :=
  match t with
  | Some t => Frame.Str (col t)
  | None => Frame.Missing
  end.

(** A float column of the Tracks table on a joined row: NaN when missing. *)
Definition track_float (t : option Track.t) (col : Track.t -> float) : float :=
  match t with
  | Some t => col t
  | None => PrimFloat.nan
  end.

(** The wide row the two joins build from an event, its user and its track. *)
Definition wide_row (e : TrackedEvent) (u : option User.t) (t : option Track.t)
  : Frame.Row :=
  Frame.mkRow
    (Event.session_id (fst e)) (Event.user_id (fst e)) (Event.position (fst e))
    (Event.time_of_day (fst e)) (Event.day_type (fst e)) (Event.location (fst e))
    (snd e)
    (user_cell u User.age_group) (user_cell u User.gender)
    (user_cell u User.country) (user_cell u User.subscription)
    (user_cell u User.platform) (user_cell u User.skip_tendency)
    (track_cell t Track.genre)
    (option_map Track.popularity t)
    (track_float t Track.acousticness) (track_float t Track.danceability)
    (track_float t Track.energy)
    (option_map Track.tempo t) (option_map Track.duration_sec t).

(** The two merges of the script.  A table expanded from no event at all is
    [pd.DataFrame([])], which has no [user_id] column to merge on. *)
Definition join_stage (events_df : list TrackedEvent) (users_df : list User.t)
    (tracks_df : list Track.t) : outcome (list Frame.Row) :=
  match events_df with
  | [] => Error "KeyError: 'user_id'"
  | _ =>
      let with_users :=
        merge_left (fun e => Event.user_id (fst e)) User.user_id
          (fun e u => (e, u)) events_df users_df in
      Ok (merge_left (fun eu => snd (fst eu)) Track.track_id
            (fun eu t => wide_row (fst eu) (snd eu) t) with_users tracks_df)
  end.

(** A row of the exported table. *)
Record OutRow : Type := mkOutRow {
  row : Frame.Row;
  skip_prob : float;
  skip : bool
}.

(** [RNG.random(len(events_df)) < events_df["skip_prob"]], element by
    element, stored next to the row and its probability. *)
Definition draw_outcome (events_df : list Frame.Row) (draws : list float)
  : outcome (list OutRow) :=
  if Nat.eqb (length draws) (length events_df)
  then Ok (map (fun '(r, u) =>
                  let p := SkipModel.compute_skip_probability r in
                  mkOutRow r p (PrimFloat.ltb u p))
             (combine events_df draws))
  else Error "Lengths must match to compare".

Section WithGenerator.
Context {RNG : Generator}.
Local Open Scope run_scope.

(** [assign_tracks(events_df, tracks_df)]; it reads the global [N_TRACKS]. *)
Definition assign_tracks (d : Dims) (events_df : list Event.t)
    (tracks_df : list Track.t) : M (list TrackedEvent) :=
  track_ids <- integers 1 (N_TRACKS d + 1) (Z.of_nat (length events_df)) ;;
  lift (set_track_id events_df track_ids).

(** The module-level statements of the script, in order, from the Users
    table to the table that is written out. *)
Definition pipeline (d : Dims) : M (list OutRow) :=
  users_df <- generate_users (N_USERS d) ;;
  tracks_df <- generate_tracks (N_TRACKS d) ;;
  sessions_df <- generate_sessions d (N_SESSIONS d) ;;
  let events_df := expand_sessions_to_events sessions_df in
  events_df <- assign_tracks d events_df tracks_df ;;
  events_df <- lift (join_stage events_df users_df tracks_df) ;;
  draws <- random (Z.of_nat (length events_df)) ;;
  lift (draw_outcome events_df draws).

Definition csv_missing : string :=
  "FileNotFoundError: [Errno 2] No such file or directory: 'data/synthetic_sessions.csv'".

(** [import streamlit_app], the first statement of the script after the
    library imports.  Importing the module runs it: it reads
    [data/synthetic_sessions.csv], which raises when the file does not exist,
    and then renders the dashboard from it.  [file] is the file on disk when
    the script starts, if there is one. *)
Definition import_streamlit_app {DM : DashboardModule} (file : option csv_file)
  : outcome unit :=
  match file with
  | None => Error csv_missing
  | Some f => render f
  end.

(** One run of the script: the dashboard module is imported, then the
    generator is created from the seed, the pipeline runs on it, and the
    final table is the result. *)
Definition run {DM : DashboardModule} (file : option csv_file) (seed : Z) (d : Dims)
  : outcome (list OutRow) :=
  match import_streamlit_app file with
  | Error msg => Error msg
  | Ok _ =>
      match pipeline d (default_rng seed) with
      | Ok (table, _) => Ok table
      | Error msg => Error msg
      end
  end.

End WithGenerator.

End Generate.

(** ** The sequence loader, [sequence_dataset.py] *)

Module SequenceDataset.
Import Run.

(** A row of the data frame as the dataset reads it: the grouping and
    ordering columns, the values of [feature_cols], and the value of
    [target_col]. *)
Record Obs : Type := mkObs {
  session_id : Z;
  position : Z;
  x : list float;
  y : Z
}.

(** One entry of [self.sessions]: the feature matrix [X] (a row per event)
    and the label vector [y], the numpy arrays of the frame's values. *)
Definition Seq : Type := (list (list float) * list Z)%type.

(** A label tensor, of dtype [long] or of dtype [float32]. *)
Inductive labels : Type :=
| Long (v : list Z)
| Float32 (v : list float).

(** [len(y)] of a label tensor. *)
Definition labels_len (t : labels) : nat :=
  match t with
  | Long v => length v
  | Float32 v => length v
  end.

(** An item of the dataset: the [float32] feature tensor and the label
    tensor. *)
Definition Item : Type := (list (list float) * labels)%type.

(** A double converted to [float32]: rounded to the nearest number with a
    24-bit significand, ties to even, to an infinity beyond the range; zeros,
    infinities and NaN stay.  A [float32] is held as the double equal to
    it. *)
Definition to_float32 (v : float) : float :=
  match Prim2SF v with
  | S754_finite s m e => SF2Prim (binary_round 24 128 s m e)
  | _ => v
  end.

(** A [long] converted to [float32], as type promotion does. *)
Definition long_to_float32 (z : Z) : float :=
  SF2Prim (binary_normalize 24 128 z 0 false).

(** [torch.tensor(X, dtype=torch.float32)] on a matrix of doubles. *)
Definition float32_tensor (X : list (list float)) : list (list float) :=
  map (map to_float32) X.

Fixpoint insert_key {A : Type} (key : A -> Z) (a : A) (l : list A) : list A :=
  match l with
  | [] => [a]
  | b :: l' => if key a <=? key b then a :: l else b :: insert_key key a l'
  end.

(** Ascending sort on an integer key, by insertion; rows of equal keys keep
    the order they had.  (With its default [kind], pandas does not promise
    an order among rows of equal keys.) *)
Definition sort_values {A : Type} (key : A -> Z) (l : list A) : list A :=
  fold_right (insert_key key) [] l.

(** [df.groupby("session_id")], iterated: the groups in ascending key order,
    each with its rows in the order of the frame. *)
Definition groupby (df : list Obs) : list (Z * list Obs) :=
  map (fun k => (k, filter (fun o => session_id o =? k) df))
      (sort_values (fun k => k) (nodup Z.eq_dec (map session_id df))).

Record SessionDataset : Type := mkSessionDataset {
  n_features : nat;
  max_len : Z;
  sessions : list Seq
}.

(** [SessionDataset.__init__(df, feature_cols, target_col, max_len)];
    [n_features] is [len(feature_cols)]. *)
Definition init (df : list Obs) (n_features : nat) (max_len : Z) : SessionDataset :=
  mkSessionDataset n_features max_len
    (map (fun kg =>
            let g := sort_values position (snd kg) in
            (map x g, map y g))
         (groupby df)).

(** [SessionDataset.__len__]. *)
Definition len (ds : SessionDataset) : nat := length (sessions ds).

(** The slice [l[:k]]: a negative [k] counts from the end. *)
Definition slice_to {A : Type} (k : Z) (l : list A) : list A :=
  if 0 <=? k then firstn (Z.to_nat k) l
  else firstn (Z.to_nat (Z.of_nat (length l) + k)) l.

(** [SessionDataset.__getitem__(idx)] for an index of the loader.  A session
    shorter than [max_len] is converted and then padded: [torch.zeros] makes
    [float32] zeros, so [torch.cat] promotes the [long] labels to [float32].
    A session of [max_len] events or more is cut and then converted, and its
    labels stay [long]. *)
Definition getitem (ds : SessionDataset) (idx : nat) : outcome Item :=
  match nth_error (sessions ds) idx with
  | None => Error "list index out of range"
  | Some (X, y) =>
      let pad_len := max_len ds - Z.of_nat (length X) in
      if 0 <? pad_len then
        let X := float32_tensor X in
        let X_pad := repeat (repeat PrimFloat.zero (n_features ds)) (Z.to_nat pad_len) in
        let y_pad := repeat PrimFloat.zero (Z.to_nat pad_len) in
        Ok (X ++ X_pad, Float32 (map long_to_float32 y ++ y_pad))%list
      else
        Ok (float32_tensor (slice_to (max_len ds) X), Long (slice_to (max_len ds) y))
  end.

(** The size check of [torch.stack]: the tensors must be at least one and of
    one size. *)
Definition stackable (sizes : list nat) : outcome unit :=
  match sizes with
  | [] => Error "stack expects a non-empty TensorList"
  | n :: _ =>
      if forallb (fun n' => Nat.eqb n' n) sizes then Ok tt
      else Error "stack expects each tensor to be equal size"
  end.

(** [torch.stack] on tensors of one dtype. *)
Definition stack {A : Type} (ts : list (list A)) : outcome (list (list A)) :=
  match stackable (map (@length A) ts) with
  | Ok _ => Ok ts
  | Error msg => Error msg
  end.

Definition is_long (t : labels) : bool :=
  match t with
  | Long _ => true
  | Float32 _ => false
  end.

Definition as_float32 (t : labels) : labels :=
  match t with
  | Long v => Float32 (map long_to_float32 v)
  | Float32 v => Float32 v
  end.

(** [torch.stack] on label tensors: the rows of the result have one dtype,
    [long] when every tensor is [long] and [float32] otherwise. *)
Definition stack_labels (ts : list labels) : outcome (list labels) :=
  match stackable (map labels_len ts) with
  | Ok _ => Ok (if forallb is_long ts then ts else map as_float32 ts)
  | Error msg => Error msg
  end.

(** [collate_fn(batch)]: the stacked features, the stacked labels and the
    tensor of lengths. *)
Definition collate_fn (batch : list Item)
  : outcome (list (list (list float)) * list labels * list Z) :=
  let lengths := map (fun b => Z.of_nat (labels_len (snd b))) batch in
  match stack (map fst batch) with
  | Error msg => Error msg
  | Ok xs =>
      match stack_labels (map snd batch) with
      | Error msg => Error msg
      | Ok ys => Ok (xs, ys, lengths)
      end
  end.

Fixpoint fetch (ds : SessionDataset) (idxs : list nat) : outcome (list Item) :=
  match idxs with
  | [] => Ok []
  | i :: idxs' =>
      match getitem ds i with
      | Error msg => Error msg
      | Ok item =>
          match fetch ds idxs' with
          | Error msg => Error msg
          | Ok items => Ok (item :: items)
          end
      end
  end.

(** One batch of the loader: the items at the batch's indices, collated. *)
Definition load_batch (ds : SessionDataset) (idxs : list nat) :=
  match fetch ds idxs with
  | Error msg => Error msg
  | Ok batch => collate_fn batch
  end.

(** The number of events session [idx] of the dataset really has: the length
    of its group in the frame, before any padding or truncation. *)
Definition true_length (df : list Obs) (idx : nat) : option Z :=
  option_map (fun kg => Z.of_nat (length (snd kg))) (nth_error (groupby df) idx).

End SequenceDataset.

(** ** The rule table of the specification *)

Module SkipSpec.
Import Frame.
Local Open Scope float_scope.

(** A row of the adjustment table: the condition and its delta. *)
Definition rule : Type := ((Row -> bool) * float)%type.

(** The adjustment table, row by row as the specification lists it. *)
Definition reference_rules : list rule :=
  [ (fun r => cell_eqb (skip_tendency r) "high", 0.25);
    (fun r => negb (cell_eqb (skip_tendency r) "high")
              && cell_eqb (skip_tendency r) "medium", 0.10);
    (fun r => cell_eqb (age_group r) "13-17" || cell_eqb (age_group r) "18-24", 0.05);
    (fun r => cell_eqb (subscription r) "free", 0.10);
    (fun r => cell_eqb (country r) "LATAM", 0.08);
    (fun r => cell_eqb (country r) "EU_UK", -0.05);
    (fun r => String.eqb (time_of_day r) "morning", -0.05);
    (fun r => String.eqb (location r) "gym", 0.10);
    (fun r => String.eqb (day_type r) "weekend", 0.05);
    (fun r => cell_eqb (genre r) "pop" || cell_eqb (genre r) "latin", -0.05);
    (fun r => cell_eqb (genre r) "classical" || cell_eqb (genre r) "jazz", 0.10);
    (fun r => PrimFloat.ltb (energy r) 0.3, 0.05);
    (fun r => PrimFloat.ltb 0.7 (danceability r), -0.05) ].

Definition baseline : float := 0.25.

(** The table folded over a row: every rule whose condition holds adds its
    delta to the baseline. *)
Definition reference_sum (r : Row) : float :=
  fold_left (fun p (c : rule) => if fst c r then p + snd c else p)
    reference_rules baseline.

(** The clamp to the closed interval [0, 1]. *)
Definition clamp01 (v : float) : float :=
  if PrimFloat.ltb v 0 then 0 else if PrimFloat.ltb 1 v then 1 else v.

Definition reference_skip_probability (r : Row) : float :=
  clamp01 (reference_sum r).

End SkipSpec.

(** ** Case analysis on the tests of the skip model *)

Module SkipCases.
Local Open Scope float_scope.

(** The score as a function of the outcomes of its thirteen tests, in source
    order. *)
Definition score_of (hi me ag fr la eu mo gy we g1 g2 lo da : bool) : float :=
  let p := 0.25 in
  let p := if hi then p + 0.25 else if me then p + 0.10 else p in
  let p := if ag then p + 0.05 else p in
  let p := if fr then p + 0.10 else p in
  let p := if la then p + 0.08 else p in
  let p := if eu then p - 0.05 else p in
  let p := if mo then p - 0.05 else p in
  let p := if gy then p + 0.10 else p in
  let p := if we then p + 0.05 else p in
  let p := if g1 then p - 0.05 else p in
  let p := if g2 then p + 0.10 else p in
  let p := if lo then p + 0.05 else p in
  let p := if da then p - 0.05 else p in
  p.

Definition forall_bool (f : bool -> bool) : bool := f true && f false.

(** A check on the score, seen as a function of the two [skip_tendency]
    tests, run for every outcome of the other eleven tests. *)
Definition for_all_rest (chk : (bool -> bool -> float) -> bool) : bool :=
  forall_bool (fun ag => forall_bool (fun fr => forall_bool (fun la =>
  forall_bool (fun eu => forall_bool (fun mo => forall_bool (fun gy =>
  forall_bool (fun we => forall_bool (fun g1 => forall_bool (fun g2 =>
  forall_bool (fun lo => forall_bool (fun da =>
    chk (fun hi me => score_of hi me ag fr la eu mo gy we g1 g2 lo da)))))))))))).

(** A check on a single score, run for every outcome of the two
    [skip_tendency] tests. *)
Definition at_each_tendency (chk : float -> bool) (f : bool -> bool -> float) : bool :=
  forall_bool (fun hi => forall_bool (fun me => chk (f hi me))).

End SkipCases.

(** ** What the entity generators are specified to return *)

Module GenerateSpec.
Import Generate.

(** Every categorical value of a user belongs to the symbol list of its
    column. *)
Definition user_symbols_declared (u : User.t) : Prop :=
  In (User.age_group u) AGE_GROUPS /\ In (User.gender u) GENDERS /\
  In (User.country u) COUNTRIES /\ In (User.subscription u) SUB_TYPES /\
  In (User.platform u) PLATFORMS /\ In (User.skip_tendency u) SKIP_TENDENCY.

End GenerateSpec.

(** ** What the event expander is specified to emit *)

Module ExpandSpec.

(** The events one session row expands into: one per value of
    [range(session_length)], at position [pos + 1]. *)
Definition session_events (s : Session.t) : list Event.t :=
  map (fun pos => Event.mk (Session.session_id s) (Session.user_id s) (pos + 1)
                    (Session.time_of_day s) (Session.day_type s) (Session.location s))
      (Run.range (Session.session_length s)).

(** The sum of [session_length] over a sessions table. *)
Definition total_length (sessions_df : list Session.t) : Z :=
  fold_right (fun s acc => Session.session_length s + acc) 0 sessions_df.

(** An event carries the attributes of the session it was expanded from. *)
Definition carries (s : Session.t) (e : Event.t) : Prop :=
  Event.session_id e = Session.session_id s /\
  Event.user_id e = Session.user_id s /\
  Event.time_of_day e = Session.time_of_day s /\
  Event.day_type e = Session.day_type s /\
  Event.location e = Session.location s.

End ExpandSpec.

(** ** What the joins are specified to do *)

Module JoinSpec.
Import Generate.

(** Exactly one row of the Users table carries the event's [user_id]. *)
Definition one_user (users_df : list User.t) (e : TrackedEvent) : Prop :=
  exists u, filter (fun u => User.user_id u =? Event.user_id (fst e)) users_df = [u].

(** Exactly one row of the Tracks table carries the event's [track_id]. *)
Definition one_track (tracks_df : list Track.t) (e : TrackedEvent) : Prop :=
  exists t, filter (fun t => Track.track_id t =? snd e) tracks_df = [t].

(** The event a wide row was built from. *)
Definition event_of (r : Frame.Row) : TrackedEvent :=
  (Event.mk (Frame.session_id r) (Frame.user_id r) (Frame.position r)
     (Frame.time_of_day r) (Frame.day_type r) (Frame.location r),
   Frame.track_id r).

(** No user column of the row is missing. *)
Definition user_columns_present (r : Frame.Row) : Prop :=
  Frame.age_group r <> Frame.Missing /\ Frame.gender r <> Frame.Missing /\
  Frame.country r <> Frame.Missing /\ Frame.subscription r <> Frame.Missing /\
  Frame.platform r <> Frame.Missing /\ Frame.skip_tendency r <> Frame.Missing.

(** Neither the genre nor an integer column of the track is missing.  (The
    three float columns would be NaN on a row without a track.) *)
Definition track_columns_present (r : Frame.Row) : Prop :=
  Frame.genre r <> Frame.Missing /\ Frame.popularity r <> None /\
  Frame.tempo r <> None /\ Frame.duration_sec r <> None.

End JoinSpec.

(** ** A small generator to run the script on *)

Module Toy.
Import Run.
Local Open Scope float_scope.

Definition quarters : list float := [0; 0.25; 0.5; 0.75].

(** A counter: the [i]-th sample of a call made in state [g] is read off
    [g + i].  It stands for no generator of numpy; it implements the
    interface, so that the script can be run on small examples. *)
#[local] Instance counter : Generator := {|
  rng_state := Z;
  default_rng := fun seed => seed;
  rng_choice := fun a p n g =>
    (map (fun i => nth (Z.to_nat ((g + Z.of_nat i) mod Z.of_nat (length a))) a ""%string)
         (seq 0 n),
     (g + Z.of_nat n)%Z);
  rng_integers := fun lo hi n g =>
    (map (fun i => (lo + (g + Z.of_nat i) mod (hi - lo))%Z) (seq 0 n),
     (g + Z.of_nat n)%Z);
  rng_random := fun n g =>
    (map (fun i => nth (Z.to_nat ((g + Z.of_nat i) mod 4)) quarters 0) (seq 0 n),
     (g + Z.of_nat n)%Z)
|}.

End Toy.

(** ** What the Tracks and Sessions tables are declared to hold *)

Module TableSpec.
Import Generate.

(** A double of the half-open unit interval. *)
Definition unit_float (v : float) : Prop :=
  PrimFloat.leb 0 v = true /\ PrimFloat.ltb v 1 = true.

(** The genre of a track is a declared one and its numbers lie in the ranges
    its columns are drawn from. *)
Definition track_declared (t : Track.t) : Prop :=
  In (Track.genre t) GENRES /\
  0 <= Track.popularity t <= 100 /\
  unit_float (Track.acousticness t) /\
  unit_float (Track.danceability t) /\
  unit_float (Track.energy t) /\
  60 <= Track.tempo t <= 180 /\
  120 <= Track.duration_sec t <= 359.

(** The user of a session is one of the [N_USERS] users, its categorical
    values are declared ones, and its length lies in 5..39. *)
Definition session_declared (d : Dims) (s : Session.t) : Prop :=
  1 <= Session.user_id s <= N_USERS d /\
  In (Session.time_of_day s) TIME_OF_DAY /\
  In (Session.day_type s) DAY_TYPE /\
  In (Session.location s) LOCATIONS /\
  5 <= Session.session_length s <= 39.

End TableSpec.

(** ** What the exported table is declared to hold *)

Module ExportSpec.
Import Generate TableSpec.

(** The cell holds a string, one of the symbols of a list. *)
Definition cell_among (symbols : list string) (c : Frame.cell) : Prop :=
  exists s, c = Frame.Str s /\ In s symbols.

(** The cell holds an integer of a range. *)
Definition number_between (lo hi : Z) (v : option Z) : Prop :=
  exists z, v = Some z /\ lo <= z <= hi.

(** Every column of a wide row is present and holds a value of the symbol
    list or range of the entity column it was copied from. *)
Definition row_declared (d : Dims) (r : Frame.Row) : Prop :=
  (1 <= Frame.session_id r <= N_SESSIONS d /\
   1 <= Frame.user_id r <= N_USERS d /\
   1 <= Frame.position r <= 39 /\
   1 <= Frame.track_id r <= N_TRACKS d) /\
  (In (Frame.time_of_day r) TIME_OF_DAY /\
   In (Frame.day_type r) DAY_TYPE /\
   In (Frame.location r) LOCATIONS) /\
  (cell_among AGE_GROUPS (Frame.age_group r) /\
   cell_among GENDERS (Frame.gender r) /\
   cell_among COUNTRIES (Frame.country r) /\
   cell_among SUB_TYPES (Frame.subscription r) /\
   cell_among PLATFORMS (Frame.platform r) /\
   cell_among SKIP_TENDENCY (Frame.skip_tendency r)) /\
  (cell_among GENRES (Frame.genre r) /\
   number_between 0 100 (Frame.popularity r) /\
   unit_float (Frame.acousticness r) /\
   unit_float (Frame.danceability r) /\
   unit_float (Frame.energy r) /\
   number_between 60 180 (Frame.tempo r) /\
   number_between 120 359 (Frame.duration_sec r)).

(** The wide rows of a run: each tracked event next to the user and the
    track its ids look up. *)
Definition looked_up_rows (events : list TrackedEvent) (users : list User.t)
    (tracks : list Track.t) : list Frame.Row :=
  map (fun e => wide_row e
         (find (fun u => User.user_id u =? Event.user_id (fst e)) users)
         (find (fun t => Track.track_id t =? snd e) tracks))
      events.

(** The exported rows: each wide row with its probability and the outcome of
    its draw. *)
Definition sampled_rows (rows : list Frame.Row) (draws : list float) : list OutRow :=
  map (fun '(r, u) =>
         let p := SkipModel.compute_skip_probability r in
         mkOutRow r p (PrimFloat.ltb u p))
      (combine rows draws).

End ExportSpec.

(** ** The dashboard filters, [streamlit_app.py] *)

Module Dashboard.

(** A row of the frame once its categorical columns have been converted with
    [astype(str)] and its position with [astype(int)]. *)
Record DRow : Type := mkDRow {
  country : string;
  platform : string;
  subscription : string;
  genre : string;
  age_group : string;
  time_of_day : string;
  day_type : string;
  position : Z;
  skip : bool
}.

(** The state of the sidebar: the values chosen in each multiselect, and the
    two ends of the position slider. *)
Record Sidebar : Type := mkSidebar {
  country_filter : list string;
  platform_filter : list string;
  age_filter : list string;
  sub_filter : list string;
  genre_filter : list string;
  time_filter : list string;
  daytype_filter : list string;
  pos_range : Z * Z
}.

(** [df[df[col].isin(values)]]. *)
Definition isin (col : DRow -> string) (values : list string) (df : list DRow)
  : list DRow :=
  filter (fun r => existsb (String.eqb (col r)) values) df.

(** [if chosen: df = df[df[col].isin(chosen)]]: an empty list is false. *)
Definition select (col : DRow -> string) (chosen : list string) (df : list DRow)
  : list DRow :=
  match chosen with
  | [] => df
  | _ => isin col chosen df
  end.

(** The block that applies the filters: the seven multiselects in source
    order, then the position range, both ends included. *)
Definition apply_filters (sb : Sidebar) (df : list DRow) : list DRow :=
  let df_filtered := df in
  let df_filtered := select country (country_filter sb) df_filtered in
  let df_filtered := select platform (platform_filter sb) df_filtered in
  let df_filtered := select age_group (age_filter sb) df_filtered in
  let df_filtered := select subscription (sub_filter sb) df_filtered in
  let df_filtered := select genre (genre_filter sb) df_filtered in
  let df_filtered := select time_of_day (time_filter sb) df_filtered in
  let df_filtered := select day_type (daytype_filter sb) df_filtered in
  filter (fun r => (fst (pos_range sb) <=? position r)
                   && (position r <=? snd (pos_range sb)))
         df_filtered.

(** The sidebar as the page opens: nothing chosen, the slider at (0, 40). *)
Definition opening_sidebar : Sidebar := mkSidebar [] [] [] [] [] [] [] (0, 40).

End Dashboard.

(** ** What the dashboard filters are specified to keep *)

Module DashboardSpec.
Import Dashboard.

(** A multiselect lets a value through when nothing is chosen or the value
    is among the chosen ones. *)
Definition allows (chosen : list string) (v : string) : bool :=
  match chosen with
  | [] => true
  | _ => existsb (String.eqb v) chosen
  end.

(** A row passes the sidebar when every multiselect allows it and its
    position is within the slider. *)
Definition passes (sb : Sidebar) (r : DRow) : bool :=
  allows (country_filter sb) (country r)
  && allows (platform_filter sb) (platform r)
  && allows (age_filter sb) (age_group r)
  && allows (sub_filter sb) (subscription r)
  && allows (genre_filter sb) (genre r)
  && allows (time_filter sb) (time_of_day r)
  && allows (daytype_filter sb) (day_type r)
  && ((fst (pos_range sb) <=? position r) && (position r <=? snd (pos_range sb))).

(** A multiselect does not restrict a frame: nothing is chosen, or every
    value of the column in the frame is chosen. *)
Definition unrestrictive (col : DRow -> string) (chosen : list string)
    (df : list DRow) : Prop :=
  chosen = [] \/ forall r, In r df -> In (col r) chosen.

End DashboardSpec.

(** ** Rows ordered by their signals *)

Module SkipOrder.
Import Frame SkipModel SkipCases.
Local Open Scope float_scope.

(** The level of the [skip_tendency] test: 2 for "high", 1 for "medium",
    0 for anything else. *)
Definition tendency_level (r : Row) : nat :=
  if cell_eqb (skip_tendency r) "high" then 2
  else if cell_eqb (skip_tendency r) "medium" then 1
  else 0.

(** Every signal of [r2] pushes towards a skip at least as much as the same
    signal of [r1]: the tendency is no lower, every test with a positive
    delta that fires on [r1] fires on [r2], and every test with a negative
    delta that fires on [r2] fires on [r1]. *)
Definition no_less_skippable (r1 r2 : Row) : Prop :=
  (tendency_level r1 <= tendency_level r2)%nat /\
  (cell_in (age_group r1) ["13-17"; "18-24"]%string = true ->
   cell_in (age_group r2) ["13-17"; "18-24"]%string = true) /\
  (cell_eqb (subscription r1) "free" = true ->
   cell_eqb (subscription r2) "free" = true) /\
  (cell_eqb (country r1) "LATAM" = true -> cell_eqb (country r2) "LATAM" = true) /\
  (cell_eqb (country r2) "EU_UK" = true -> cell_eqb (country r1) "EU_UK" = true) /\
  (String.eqb (time_of_day r2) "morning" = true ->
   String.eqb (time_of_day r1) "morning" = true) /\
  (String.eqb (location r1) "gym" = true -> String.eqb (location r2) "gym" = true) /\
  (String.eqb (day_type r1) "weekend" = true ->
   String.eqb (day_type r2) "weekend" = true) /\
  (cell_in (genre r2) ["pop"; "latin"]%string = true ->
   cell_in (genre r1) ["pop"; "latin"]%string = true) /\
  (cell_in (genre r1) ["classical"; "jazz"]%string = true ->
   cell_in (genre r2) ["classical"; "jazz"]%string = true) /\
  (PrimFloat.ltb (energy r1) 0.3 = true -> PrimFloat.ltb (energy r2) 0.3 = true) /\
  (PrimFloat.ltb 0.7 (danceability r2) = true ->
   PrimFloat.ltb 0.7 (danceability r1) = true).

(** The score at a tendency level. *)
Definition score_at (lvl : nat) : bool -> bool -> bool -> bool -> bool -> bool ->
    bool -> bool -> bool -> bool -> bool -> float :=
  match lvl with
  | 0%nat => score_of false false
  | 1%nat => score_of false true
  | _ => score_of true false
  end.

(** A check run on every pair of outcomes of one test in which the second
    fires whenever the first does. *)
Definition forall_pair (f : bool -> bool -> bool) : bool :=
  f false false && f false true && f true true.

(** A check run on every pair of tendency levels in which the second is no
    lower than the first. *)
Definition forall_levels (f : nat -> nat -> bool) : bool :=
  (f 0 0 && f 0 1 && f 0 2 && f 1 1 && f 1 2 && f 2 2)%nat.

(** The clamped score compared on every two vectors of test outcomes of
    which the second is no less skippable than the first. *)
Definition monotone_check : bool :=
  forall_pair (fun ag1 ag2 => forall_pair (fun fr1 fr2 => forall_pair (fun la1 la2 =>
  forall_pair (fun eu2 eu1 => forall_pair (fun mo2 mo1 => forall_pair (fun gy1 gy2 =>
  forall_pair (fun we1 we2 => forall_pair (fun g12 g11 => forall_pair (fun g21 g22 =>
  forall_pair (fun lo1 lo2 => forall_pair (fun da2 da1 =>
  forall_levels (fun l1 l2 =>
    PrimFloat.leb
      (py_max 0 (py_min 1 (score_at l1 ag1 fr1 la1 eu1 mo1 gy1 we1 g11 g21 lo1 da1)))
      (py_max 0 (py_min 1 (score_at l2 ag2 fr2 la2 eu2 mo2 gy2 we2 g12 g22 lo2 da2))))))))))))))).

End SkipOrder.

(** ** Frames the sequence dataset is built from *)

Module SequenceSpec.
Import SequenceDataset.

(** Every row of the frame has a value for each of the [n_features] feature
    columns. *)
Definition feature_width (nf : nat) (df : list Obs) : Prop :=
  Forall (fun o => length (x o) = nf) df.

End SequenceSpec.

(** ** What a joined row holds of its partners *)

Module LookupSpec.

(** The user columns of the row are those of the user. *)
Definition user_columns_of (u : User.t) (r : Frame.Row) : Prop :=
  Frame.age_group r = Frame.Str (User.age_group u) /\
  Frame.gender r = Frame.Str (User.gender u) /\
  Frame.country r = Frame.Str (User.country u) /\
  Frame.subscription r = Frame.Str (User.subscription u) /\
  Frame.platform r = Frame.Str (User.platform u) /\
  Frame.skip_tendency r = Frame.Str (User.skip_tendency u).

(** The track columns of the row are those of the track. *)
Definition track_columns_of (t : Track.t) (r : Frame.Row) : Prop :=
  Frame.genre r = Frame.Str (Track.genre t) /\
  Frame.popularity r = Some (Track.popularity t) /\
  Frame.acousticness r = Track.acousticness t /\
  Frame.danceability r = Track.danceability t /\
  Frame.energy r = Track.energy t /\
  Frame.tempo r = Some (Track.tempo t) /\
  Frame.duration_sec r = Some (Track.duration_sec t).

End LookupSpec.

(** ** Example inputs *)

(** A row on which every positive adjustment of the skip model fires and no
    negative one does. *)
Definition stacked_row : Frame.Row :=
  Frame.mkRow 1 1 1 "evening" "weekend" "gym" 1
    (Frame.Str "18-24") (Frame.Str "female") (Frame.Str "LATAM")
    (Frame.Str "free") (Frame.Str "ios") (Frame.Str "high") (Frame.Str "jazz")
    (Some 50) 0.5%float 0.5%float 0.1%float (Some 120) (Some 200).

Definition two_sessions : list Session.t :=
  [Session.mk 1 7 "morning" "weekday" "home" 5;
   Session.mk 2 3 "night" "weekend" "gym" 6].

Definition known_user : User.t :=
  User.mk 1 "25-34" "female" "EU_UK" "premium" "ios" "low".

Definition known_track : Track.t :=
  Track.mk 1 "rock" 50 0.5%float 0.5%float 0.5%float 120 200.

(** An event of user 7 on track 3, neither of which is in the tables. *)
Definition orphan_event : Generate.TrackedEvent :=
  (Event.mk 1 7 1 "morning" "weekday" "home", 3).

(** One session of five events, each with one feature. *)
Definition short_session : list SequenceDataset.Obs :=
  [SequenceDataset.mkObs 1 1 [0.5%float] 0;
   SequenceDataset.mkObs 1 2 [0.25%float] 1;
   SequenceDataset.mkObs 1 3 [0.75%float] 0;
   SequenceDataset.mkObs 1 4 [0.5%float] 0;
   SequenceDataset.mkObs 1 5 [0.25%float] 1].

(** The dimensions of a small run: two users, three tracks, two sessions. *)
Definition small_dims : Generate.Dims := Generate.mkDims 2 3 2.

(** One session of three events, out of order in the frame, with features
    that are not [float32] numbers. *)
Definition shuffled_session : list SequenceDataset.Obs :=
  [SequenceDataset.mkObs 7 3 [0.1%float] 1;
   SequenceDataset.mkObs 7 1 [0.7%float] 0;
   SequenceDataset.mkObs 7 2 [16777217%float] 1].

(** Two rows of the dashboard's frame. *)
Definition dashboard_rows : list Dashboard.DRow :=
  [Dashboard.mkDRow "EU_UK" "ios" "free" "pop" "18-24" "morning" "weekday" 1 true;
   Dashboard.mkDRow "LATAM" "web" "premium" "jazz" "45+" "night" "weekend" 39 false].

(** A dashboard module that reads a frame of rows and renders any of them
    without an error. *)
#[local] Instance any_file_renders : Run.DashboardModule := {|
  Run.csv_file := list Dashboard.DRow;
  Run.render := fun _ => Run.Ok tt
|}.

(** The stacked row with a low tendency and in the morning. *)
Definition calmer_row : Frame.Row :=
  Frame.mkRow 1 1 1 "morning" "weekend" "gym" 1
    (Frame.Str "18-24") (Frame.Str "female") (Frame.Str "LATAM")
    (Frame.Str "free") (Frame.Str "ios") (Frame.Str "low") (Frame.Str "jazz")
    (Some 50) 0.5%float 0.5%float 0.1%float (Some 120) (Some 200).

(** An event of the known user on the known track. *)
Definition matched_event : Generate.TrackedEvent :=
  (Event.mk 1 1 1 "morning" "weekday" "home", 1).

(** * Properties *)

(** ** The skip-probability model *)

Section SkipModelFacts.
Import Frame SkipModel SkipSpec SkipCases.
Local Open Scope float_scope.

Lemma cell_eqb_eq (c : cell) (s : string) :
  cell_eqb c s = true <-> c = Str s.
Proof.
  destruct c as [t|]; simpl.
  - rewrite String.eqb_eq. split; [intros ->; reflexivity | congruence].
  - split; discriminate.
Qed.

(** The score depends on the row only through its thirteen tests. *)
Lemma skip_score_tests (row : Row) :
  skip_score row =
  score_of (cell_eqb (skip_tendency row) "high") (cell_eqb (skip_tendency row) "medium")
    (cell_in (age_group row) ["13-17"; "18-24"]%string)
    (cell_eqb (subscription row) "free")
    (cell_eqb (country row) "LATAM") (cell_eqb (country row) "EU_UK")
    (String.eqb (time_of_day row) "morning") (String.eqb (location row) "gym")
    (String.eqb (day_type row) "weekend")
    (cell_in (genre row) ["pop"; "latin"]%string)
    (cell_in (genre row) ["classical"; "jazz"]%string)
    (PrimFloat.ltb (energy row) 0.3) (PrimFloat.ltb 0.7 (danceability row)).
Proof. reflexivity. Qed.

Lemma forall_bool_sound (f : bool -> bool) :
  forall_bool f = true -> forall b, f b = true.
Proof.
  unfold forall_bool. intros H b.
  apply andb_true_iff in H. destruct H as [Ht Hf]. destruct b; assumption.
Qed.

Lemma for_all_rest_sound (chk : (bool -> bool -> float) -> bool) :
  for_all_rest chk = true ->
  forall ag fr la eu mo gy we g1 g2 lo da,
    chk (fun hi me => score_of hi me ag fr la eu mo gy we g1 g2 lo da) = true.
Proof.
  unfold for_all_rest. intros H ag fr la eu mo gy we g1 g2 lo da.
  pose proof (forall_bool_sound _ H ag) as H1; cbv beta in H1.
  pose proof (forall_bool_sound _ H1 fr) as H2; cbv beta in H2.
  pose proof (forall_bool_sound _ H2 la) as H3; cbv beta in H3.
  pose proof (forall_bool_sound _ H3 eu) as H4; cbv beta in H4.
  pose proof (forall_bool_sound _ H4 mo) as H5; cbv beta in H5.
  pose proof (forall_bool_sound _ H5 gy) as H6; cbv beta in H6.
  pose proof (forall_bool_sound _ H6 we) as H7; cbv beta in H7.
  pose proof (forall_bool_sound _ H7 g1) as H8; cbv beta in H8.
  pose proof (forall_bool_sound _ H8 g2) as H9; cbv beta in H9.
  pose proof (forall_bool_sound _ H9 lo) as H10; cbv beta in H10.
  exact (forall_bool_sound _ H10 da).
Qed.

(** A check that holds of the score for every outcome of the tests holds of
    the score of every row. *)
Lemma every_score (chk : float -> bool) :
  for_all_rest (at_each_tendency chk) = true ->
  forall row, chk (skip_score row) = true.
Proof.
  intros H row. rewrite skip_score_tests.
  pose proof (for_all_rest_sound _ H
    (cell_in (age_group row) ["13-17"; "18-24"]%string)
    (cell_eqb (subscription row) "free")
    (cell_eqb (country row) "LATAM") (cell_eqb (country row) "EU_UK")
    (String.eqb (time_of_day row) "morning") (String.eqb (location row) "gym")
    (String.eqb (day_type row) "weekend")
    (cell_in (genre row) ["pop"; "latin"]%string)
    (cell_in (genre row) ["classical"; "jazz"]%string)
    (PrimFloat.ltb (energy row) 0.3) (PrimFloat.ltb 0.7 (danceability row))) as Hr.
  unfold at_each_tendency in Hr.
  pose proof (forall_bool_sound _ Hr (cell_eqb (skip_tendency row) "high")) as Hh.
  cbv beta in Hh.
  exact (forall_bool_sound _ Hh (cell_eqb (skip_tendency row) "medium")).
Qed.

(** The rule table evaluated on a row is a fold over the outcomes of its
    conditions. *)
Lemma fold_rules (rules : list rule) (r : Row) (p0 : float) :
  fold_left (fun p (c : rule) => if fst c r then p + snd c else p) rules p0 =
  fold_left (fun p (c : bool * float) => if fst c then p + snd c else p)
    (map (fun c : rule => (fst c r, snd c)) rules) p0.
Proof.
  revert p0. induction rules as [|c rules IH]; intros p0; simpl.
  - reflexivity.
  - apply IH.
Qed.

(** The code and the table agree for every outcome of the tests; a row on
    which [skip_tendency] is "high" is not one on which it is "medium". *)
Lemma code_table_agree (hi me ag fr la eu mo gy we g1 g2 lo da : bool) :
  py_max 0 (py_min 1 (score_of hi me ag fr la eu mo gy we g1 g2 lo da)) =
  clamp01
    (fold_left (fun p (c : bool * float) => if fst c then p + snd c else p)
       [(hi, 0.25); (negb hi && me, 0.10); (ag, 0.05); (fr, 0.10); (la, 0.08);
        (eu, -0.05); (mo, -0.05); (gy, 0.10); (we, 0.05); (g1, -0.05);
        (g2, 0.10); (lo, 0.05); (da, -0.05)] baseline).
Proof.
  destruct hi, me, ag, fr, la, eu, mo, gy, we, g1, g2, lo, da;
    vm_compute; reflexivity.
Qed.

(** C1. For every enriched event row, [compute_skip_probability] equals the
    reference rule table: the baseline 0.25 plus the delta of every condition
    of the table that holds on the row, clamped to [0, 1]; both sides are
    evaluated in double precision, as the program evaluates them. *)
Theorem compute_skip_probability_is_rule_table (row : Row) :
  compute_skip_probability row = reference_skip_probability row.
Proof.
  unfold compute_skip_probability, reference_skip_probability, reference_sum.
  rewrite skip_score_tests, fold_rules.
  cbn [reference_rules map fst snd].
  unfold cell_in. cbn [existsb]. rewrite !orb_false_r.
  apply code_table_agree.
Qed.

(** C2. For every input row, whatever its categorical values and whatever
    doubles (NaN and infinities included) its [energy] and [danceability]
    are, the result of [compute_skip_probability] lies in [0, 1]. *)
Theorem compute_skip_probability_in_unit_interval (row : Row) :
  PrimFloat.leb 0 (compute_skip_probability row) = true /\
  PrimFloat.leb (compute_skip_probability row) 1 = true.
Proof.
  unfold compute_skip_probability.
  pose proof (every_score
    (fun s => PrimFloat.leb 0 (py_max 0 (py_min 1 s))
              && PrimFloat.leb (py_max 0 (py_min 1 s)) 1)) as H.
  cbv beta in H. apply andb_true_iff. apply H.
  vm_compute. reflexivity.
Qed.

(** C7. With every other field of the row fixed, the skip probability does
    not decrease as [skip_tendency] goes from "low" to "medium" to "high". *)
Theorem skip_tendency_monotone (row : Row) :
  PrimFloat.leb (compute_skip_probability (with_skip_tendency (Str "low") row))
                (compute_skip_probability (with_skip_tendency (Str "medium") row)) = true /\
  PrimFloat.leb (compute_skip_probability (with_skip_tendency (Str "medium") row))
                (compute_skip_probability (with_skip_tendency (Str "high") row)) = true.
Proof.
  unfold compute_skip_probability. rewrite !skip_score_tests.
  cbn [with_skip_tendency skip_tendency age_group subscription country
       time_of_day location day_type genre energy danceability].
  change (cell_eqb (Str "low") "high") with false.
  change (cell_eqb (Str "low") "medium") with false.
  change (cell_eqb (Str "medium") "high") with false.
  change (cell_eqb (Str "medium") "medium") with true.
  change (cell_eqb (Str "high") "high") with true.
  change (cell_eqb (Str "high") "medium") with false.
  apply andb_true_iff.
  apply (for_all_rest_sound
    (fun f => PrimFloat.leb (py_max 0 (py_min 1 (f false false)))
                            (py_max 0 (py_min 1 (f false true)))
              && PrimFloat.leb (py_max 0 (py_min 1 (f false true)))
                               (py_max 0 (py_min 1 (f true false))))).
  vm_compute. reflexivity.
Qed.

(** C8. On a row on which every positive adjustment fires and no negative
    one does, the unclamped sum is the double 1.03, above the upper bound, and
    [compute_skip_probability] returns exactly 1. *)
Theorem all_positive_adjustments_clamp_to_one (row : Row) :
  cell_eqb (skip_tendency row) "high" = true ->
  cell_in (age_group row) ["13-17"; "18-24"]%string = true ->
  cell_eqb (subscription row) "free" = true ->
  cell_eqb (country row) "LATAM" = true ->
  String.eqb (location row) "gym" = true ->
  String.eqb (day_type row) "weekend" = true ->
  cell_in (genre row) ["classical"; "jazz"]%string = true ->
  PrimFloat.ltb (energy row) 0.3 = true ->
  cell_eqb (country row) "EU_UK" = false ->
  String.eqb (time_of_day row) "morning" = false ->
  cell_in (genre row) ["pop"; "latin"]%string = false ->
  PrimFloat.ltb 0.7 (danceability row) = false ->
  skip_score row = 1.03 /\
  PrimFloat.ltb 1 (skip_score row) = true /\
  compute_skip_probability row = 1.
Proof.
  intros Hhi Hag Hfr Hla Hgy Hwe Hg2 Hlo Heu Hmo Hg1 Hda.
  unfold compute_skip_probability. rewrite skip_score_tests.
  rewrite Hhi, Hag, Hfr, Hla, Hgy, Hwe, Hg2, Hlo, Heu, Hmo, Hg1, Hda.
  vm_compute. repeat split; reflexivity.
Qed.

Lemma all_positive_adjustments_clamp_to_one_witness :
  skip_score stacked_row = 1.03 /\
  PrimFloat.ltb 1 (skip_score stacked_row) = true /\
  compute_skip_probability stacked_row = 1.
Proof.
  apply (all_positive_adjustments_clamp_to_one stacked_row); reflexivity.
Defined.

(** C10. For every input row the unclamped sum is at least 0.05, so the
    lower bound of the clamp is never taken: the result is the sum capped at
    1, it is at least 0.05, and it is never 0. *)
Theorem skip_probability_at_least_0_05 (row : Row) :
  PrimFloat.leb 0.05 (skip_score row) = true /\
  compute_skip_probability row = py_min 1 (skip_score row) /\
  PrimFloat.leb 0.05 (compute_skip_probability row) = true /\
  PrimFloat.eqb (compute_skip_probability row) 0 = false.
Proof.
  pose proof (every_score
    (fun s => PrimFloat.leb 0.05 s
              && PrimFloat.ltb 0 (py_min 1 s)
              && PrimFloat.leb 0.05 (py_max 0 (py_min 1 s))
              && negb (PrimFloat.eqb (py_max 0 (py_min 1 s)) 0))) as H.
  cbv beta in H. specialize (H eq_refl row).
  apply andb_true_iff in H. destruct H as [H H4].
  apply andb_true_iff in H. destruct H as [H H3].
  apply andb_true_iff in H. destruct H as [H1 H2].
  apply negb_true_iff in H4.
  unfold compute_skip_probability in *.
  repeat split; try assumption.
  unfold py_max at 1. rewrite H2. reflexivity.
Qed.

End SkipModelFacts.

(** ** The event expander *)

Section ExpandFacts.
Import Run Generate ExpandSpec.

Lemma inner_loop_appends {A : Type} (mk : Z -> A) (l : list Z) (rows : list A) :
  fold_left (fun rows pos => (rows ++ [mk pos])%list) l rows = (rows ++ map mk l)%list.
Proof.
  revert rows. induction l as [|pos l IH]; intros rows; simpl.
  - now rewrite app_nil_r.
  - rewrite IH, <- app_assoc. reflexivity.
Qed.

Lemma outer_loop_appends (sessions_df : list Session.t) (rows : list Event.t) :
  fold_left
    (fun rows row =>
       let session_id := Session.session_id row in
       let n_events := Session.session_length row in
       fold_left
         (fun rows pos =>
            (rows ++ [Event.mk session_id (Session.user_id row) (pos + 1)
                        (Session.time_of_day row) (Session.day_type row)
                        (Session.location row)])%list)
         (range n_events) rows)
    sessions_df rows
  = (rows ++ flat_map session_events sessions_df)%list.
Proof.
  revert rows. induction sessions_df as [|s ss IH]; intros rows; simpl.
  - now rewrite app_nil_r.
  - rewrite IH.
    rewrite (inner_loop_appends
      (fun pos => Event.mk (Session.session_id s) (Session.user_id s) (pos + 1)
                    (Session.time_of_day s) (Session.day_type s) (Session.location s))).
    rewrite <- app_assoc. reflexivity.
Qed.

(** The expander emits, session after session, the events of each session. *)
Lemma expand_flat_map (sessions_df : list Session.t) :
  expand_sessions_to_events sessions_df = flat_map session_events sessions_df.
Proof.
  unfold expand_sessions_to_events. now rewrite outer_loop_appends.
Qed.

Lemma session_events_length (s : Session.t) :
  length (session_events s) = Z.to_nat (Session.session_length s).
Proof.
  unfold session_events, range. now rewrite !length_map, length_seq.
Qed.

Lemma session_events_positions (s : Session.t) :
  map Event.position (session_events s)
  = map Z.of_nat (seq 1 (Z.to_nat (Session.session_length s))).
Proof.
  unfold session_events, range. rewrite !map_map. cbn [Event.position].
  rewrite <- seq_shift, map_map.
  apply map_ext. intros i. lia.
Qed.

Lemma session_events_carry (s : Session.t) :
  Forall (carries s) (session_events s).
Proof.
  unfold session_events. apply Forall_forall. intros e He.
  apply in_map_iff in He. destruct He as [pos [<- _]].
  unfold carries; cbn. repeat split.
Qed.

Lemma expand_length (sessions_df : list Session.t) :
  Forall (fun s => 0 <= Session.session_length s) sessions_df ->
  Z.of_nat (length (flat_map session_events sessions_df)) = total_length sessions_df.
Proof.
  induction 1 as [|s ss Hs _ IH]; simpl.
  - reflexivity.
  - rewrite length_app, Nat2Z.inj_add, IH, session_events_length. lia.
Qed.

Lemma filter_other_sessions (sid : Z) (ss : list Session.t) :
  ~ In sid (map Session.session_id ss) ->
  filter (fun e => Event.session_id e =? sid) (flat_map session_events ss) = [].
Proof.
  induction ss as [|s ss IH]; simpl; intros Hn.
  - reflexivity.
  - rewrite filter_app, IH by tauto.
    rewrite app_nil_r.
    assert (Hne : Session.session_id s <> sid) by tauto.
    unfold session_events.
    induction (range (Session.session_length s)) as [|pos l IHl]; simpl.
    + reflexivity.
    + destruct (Z.eqb_spec (Session.session_id s) sid); [contradiction | exact IHl].
Qed.

Lemma filter_own_session (s : Session.t) :
  filter (fun e => Event.session_id e =? Session.session_id s) (session_events s)
  = session_events s.
Proof.
  unfold session_events.
  induction (range (Session.session_length s)) as [|pos l IHl]; simpl.
  - reflexivity.
  - rewrite Z.eqb_refl, IHl. reflexivity.
Qed.

(** C3. On a sessions table whose lengths are counts (none negative), the
    expander emits for every session row one block of exactly
    [session_length] events, at positions 1, 2, ..., [session_length], each
    carrying the session's [session_id], [user_id], [time_of_day], [day_type]
    and [location]; the blocks follow each other in table order, so the table
    has as many rows as the lengths sum to, and when the session ids are
    distinct the block is all the table holds for that session id. *)
Theorem expand_sessions_to_events_spec (sessions_df : list Session.t) :
  Forall (fun s => 0 <= Session.session_length s) sessions_df ->
  Z.of_nat (length (expand_sessions_to_events sessions_df)) = total_length sessions_df /\
  forall before s after, sessions_df = (before ++ s :: after)%list ->
    exists block,
      expand_sessions_to_events sessions_df
      = (expand_sessions_to_events before ++ block
           ++ expand_sessions_to_events after)%list /\
      Z.of_nat (length block) = Session.session_length s /\
      map Event.position block
      = map Z.of_nat (seq 1 (Z.to_nat (Session.session_length s))) /\
      Forall (carries s) block /\
      (NoDup (map Session.session_id sessions_df) ->
       filter (fun e => Event.session_id e =? Session.session_id s)
              (expand_sessions_to_events sessions_df) = block).
Proof.
  intros Hlen. split.
  - rewrite expand_flat_map. now apply expand_length.
  - intros before s after ->. exists (session_events s).
    rewrite !expand_flat_map.
    assert (Hs : 0 <= Session.session_length s).
    { rewrite Forall_forall in Hlen. apply Hlen. apply in_elt. }
    repeat split.
    + rewrite flat_map_app. reflexivity.
    + rewrite session_events_length. lia.
    + apply session_events_positions.
    + apply session_events_carry.
    + intros Hnd. rewrite map_app in Hnd. cbn [map] in Hnd.
      apply NoDup_remove_2 in Hnd.
      rewrite flat_map_app. cbn [flat_map].
      rewrite !filter_app, filter_own_session.
      rewrite !filter_other_sessions.
      * now rewrite app_nil_r.
      * intros Hin. apply Hnd. apply in_or_app. now right.
      * intros Hin. apply Hnd. apply in_or_app. now left.
Qed.

End ExpandFacts.

Lemma expand_sessions_to_events_spec_witness :
  Z.of_nat (length (Generate.expand_sessions_to_events two_sessions))
  = ExpandSpec.total_length two_sessions /\
  forall before s after, two_sessions = (before ++ s :: after)%list ->
    exists block,
      Generate.expand_sessions_to_events two_sessions
      = (Generate.expand_sessions_to_events before ++ block
           ++ Generate.expand_sessions_to_events after)%list /\
      Z.of_nat (length block) = Session.session_length s /\
      map Event.position block
      = map Z.of_nat (seq 1 (Z.to_nat (Session.session_length s))) /\
      Forall (ExpandSpec.carries s) block /\
      (NoDup (map Session.session_id two_sessions) ->
       filter (fun e => Event.session_id e =? Session.session_id s)
              (Generate.expand_sessions_to_events two_sessions) = block).
Proof.
  apply (expand_sessions_to_events_spec two_sessions).
  repeat constructor; cbn; lia.
Defined.

(** ** The toy generator obeys the laws *)

Section ToyFacts.
Import Run Toy.

Lemma counter_laws : GeneratorLaws counter.
Proof.
  constructor; cbn.
  - intros a p n g _. now rewrite length_map, length_seq.
  - intros a p n g x0 Ha Hin.
    apply in_map_iff in Hin. destruct Hin as [i [<- _]].
    apply nth_In.
    assert (0 < Z.of_nat (length a)) by (destruct a; [contradiction | cbn; lia]).
    pose proof (Z.mod_pos_bound (g + Z.of_nat i) (Z.of_nat (length a))). lia.
  - intros lo hi n g _. now rewrite length_map, length_seq.
  - intros lo hi n g x0 Hlt Hin.
    apply in_map_iff in Hin. destruct Hin as [i [<- _]].
    pose proof (Z.mod_pos_bound (g + Z.of_nat i) (hi - lo)). lia.
  - intros n g. now rewrite length_map, length_seq.
  - intros n g x0 Hin.
    apply in_map_iff in Hin. destruct Hin as [i [<- _]].
    destruct (Z.to_nat ((g + Z.of_nat i) mod 4)) as [|[|[|[|k]]]];
      try (split; reflexivity).
    destruct k; split; reflexivity.
Qed.

End ToyFacts.

(** ** The entity generators *)

Section GenerateFacts.
Import Run Generate GenerateSpec.
Context {RNG : Generator} (laws : GeneratorLaws RNG).

Lemma bind_ok {A B : Type} (m : M A) (k : A -> M B) (g g' : rng_state) (a : A) :
  m g = Ok (a, g') -> bind m k g = k a g'.
Proof. unfold bind. now intros ->. Qed.

(** A call of [choice] with a non-negative size on a non-empty symbol list
    returns [size] symbols of the list. *)
Lemma choice_ok (a : list string) (p : list float) (size : Z) (g : rng_state) :
  0 <= size -> a <> [] ->
  exists xs g', choice a size p g = Ok (xs, g') /\
                length xs = Z.to_nat size /\ Forall (fun s => In s a) xs.
Proof.
  intros Hsize Ha. unfold choice.
  destruct (Z.ltb_spec size 0) as [Hneg|_]; [lia|].
  destruct a as [|a0 a']; [contradiction|].
  destruct (rng_choice (a0 :: a') p (Z.to_nat size) g) as [xs g'] eqn:E.
  exists xs, g'. repeat split.
  - pose proof (choice_length RNG laws (a0 :: a') p (Z.to_nat size) g Ha) as Hl.
    now rewrite E in Hl.
  - apply Forall_forall. intros s Hs.
    apply (choice_in RNG laws (a0 :: a') p (Z.to_nat size) g s Ha).
    now rewrite E.
Qed.

(** A call of [integers] with a non-negative size and [low < high] returns
    [size] integers of [low, high). *)
Lemma integers_ok (lo hi size : Z) (g : rng_state) :
  0 <= size -> lo < hi ->
  exists xs g', integers lo hi size g = Ok (xs, g') /\
                length xs = Z.to_nat size /\ Forall (fun v => lo <= v < hi) xs.
Proof.
  intros Hsize Hlt. unfold integers.
  destruct (Z.eqb_spec size 0) as [->|Hnz].
  { exists [], g. repeat split. constructor. }
  destruct (Z.leb_spec hi lo) as [Hle|_]; [lia|].
  destruct (Z.ltb_spec size 0) as [Hneg|_]; [lia|].
  destruct (rng_integers lo hi (Z.to_nat size) g) as [xs g'] eqn:E.
  exists xs, g'. repeat split.
  - pose proof (integers_length RNG laws lo hi (Z.to_nat size) g Hlt) as Hl.
    now rewrite E in Hl.
  - apply Forall_forall. intros v Hv.
    apply (integers_range RNG laws lo hi (Z.to_nat size) g v Hlt).
    now rewrite E.
Qed.

(** A call of [random] with a non-negative size returns [size] doubles. *)
Lemma random_ok (size : Z) (g : rng_state) :
  0 <= size ->
  exists xs g', random size g = Ok (xs, g') /\ length xs = Z.to_nat size.
Proof.
  intros Hsize. unfold random.
  destruct (Z.ltb_spec size 0) as [Hneg|_]; [lia|].
  destruct (rng_random (Z.to_nat size) g) as [xs g'] eqn:E.
  exists xs, g'. split; [reflexivity|].
  pose proof (random_length RNG laws (Z.to_nat size) g) as Hl.
  now rewrite E in Hl.
Qed.

Lemma arange_from_one (n : Z) :
  arange 1 (n + 1) = map Z.of_nat (seq 1 (Z.to_nat n)).
Proof.
  unfold arange. replace (n + 1 - 1) with n by lia.
  rewrite <- seq_shift, map_map. apply map_ext. intros i. lia.
Qed.

Lemma arange_from_one_length (n : Z) : length (arange 1 (n + 1)) = Z.to_nat n.
Proof. now rewrite arange_from_one, length_map, length_seq. Qed.

Lemma map_fst_combine {A B : Type} (l : list A) (l' : list B) :
  length l = length l' -> map fst (combine l l') = l.
Proof.
  revert l'. induction l as [|a l IH]; intros [|b l'] Hl; simpl in *;
    try discriminate; [reflexivity|].
  f_equal. apply IH. now injection Hl.
Qed.

Lemma length_combine_same {A B : Type} (l : list A) (l' : list B) :
  length l = length l' -> length (combine l l') = length l.
Proof. intros H. rewrite length_combine, <- H. apply Nat.min_id. Qed.

(** Seven columns of one length make a frame of that many rows, whose cells
    are the cells of the columns. *)
Lemma users_frame_ok (n : nat) (ids : list Z) (ag ge co su pl st : list string) :
  length ids = n -> length ag = n -> length ge = n -> length co = n ->
  length su = n -> length pl = n -> length st = n ->
  exists users,
    users_frame ids ag ge co su pl st = Ok users /\
    length users = n /\
    map User.user_id users = ids /\
    Forall (fun u => In (User.age_group u) ag /\ In (User.gender u) ge /\
                     In (User.country u) co /\ In (User.subscription u) su /\
                     In (User.platform u) pl /\ In (User.skip_tendency u) st) users.
Proof.
  intros Hids Hag Hge Hco Hsu Hpl Hst.
  unfold users_frame, same_length. cbn [forallb].
  rewrite Hids, Hag, Hge, Hco, Hsu, Hpl, Hst, Nat.eqb_refl. cbn [andb].
  eexists. split; [reflexivity|].
  assert (L6 : length (combine pl st) = n)
    by (rewrite length_combine_same; congruence).
  assert (L5 : length (combine su (combine pl st)) = n)
    by (rewrite length_combine_same; congruence).
  assert (L4 : length (combine co (combine su (combine pl st))) = n)
    by (rewrite length_combine_same; congruence).
  assert (L3 : length (combine ge (combine co (combine su (combine pl st)))) = n)
    by (rewrite length_combine_same; congruence).
  assert (L2 : length (combine ag (combine ge (combine co (combine su
                 (combine pl st))))) = n)
    by (rewrite length_combine_same; congruence).
  repeat split.
  - rewrite length_map, length_combine_same; congruence.
  - rewrite map_map.
    rewrite <- (map_fst_combine ids
      (combine ag (combine ge (combine co (combine su (combine pl st))))))
      at 2 by congruence.
    apply map_ext. intros [i [a [g [c [s0 [p t]]]]]]. reflexivity.
  - apply Forall_forall. intros u Hu.
    apply in_map_iff in Hu.
    destruct Hu as [[i [a [g [c [s0 [p t]]]]]] [<- Hin]]. cbn.
    apply in_combine_r in Hin. pose proof (in_combine_l _ _ _ _ Hin) as Ha.
    apply in_combine_r in Hin. pose proof (in_combine_l _ _ _ _ Hin) as Hg.
    apply in_combine_r in Hin. pose proof (in_combine_l _ _ _ _ Hin) as Hc.
    apply in_combine_r in Hin. pose proof (in_combine_l _ _ _ _ Hin) as Hs.
    apply in_combine_r in Hin. pose proof (in_combine_l _ _ _ _ Hin) as Hp.
    apply in_combine_r in Hin.
    repeat split; assumption.
Qed.

(** With a positive count, [generate_users] draws its six categorical
    columns, each of [N] symbols of its own list, and builds the frame from
    them and the ids. *)
Lemma generate_users_columns (N : Z) (g : rng_state) :
  0 < N ->
  exists ag ge co su pl st g',
    generate_users N g = lift (users_frame (arange 1 (N + 1)) ag ge co su pl st) g' /\
    (length ag = Z.to_nat N /\ Forall (fun s => In s AGE_GROUPS) ag) /\
    (length ge = Z.to_nat N /\ Forall (fun s => In s GENDERS) ge) /\
    (length co = Z.to_nat N /\ Forall (fun s => In s COUNTRIES) co) /\
    (length su = Z.to_nat N /\ Forall (fun s => In s SUB_TYPES) su) /\
    (length pl = Z.to_nat N /\ Forall (fun s => In s PLATFORMS) pl) /\
    (length st = Z.to_nat N /\ Forall (fun s => In s SKIP_TENDENCY) st).
Proof.
  intros HN. assert (H0 : 0 <= N) by lia.
  unfold generate_users.
  destruct (choice_ok AGE_GROUPS AGE_WEIGHTS N g H0 ltac:(discriminate))
    as (ag & g1 & E1 & Hag).
  destruct (choice_ok GENDERS GENDER_WEIGHTS N g1 H0 ltac:(discriminate))
    as (ge & g2 & E2 & Hge).
  destruct (choice_ok COUNTRIES COUNTRY_WEIGHTS N g2 H0 ltac:(discriminate))
    as (co & g3 & E3 & Hco).
  destruct (choice_ok SUB_TYPES SUB_WEIGHTS N g3 H0 ltac:(discriminate))
    as (su & g4 & E4 & Hsu).
  destruct (choice_ok PLATFORMS PLATFORM_WEIGHTS N g4 H0 ltac:(discriminate))
    as (pl & g5 & E5 & Hpl).
  destruct (choice_ok SKIP_TENDENCY SKIP_WEIGHTS N g5 H0 ltac:(discriminate))
    as (st & g6 & E6 & Hst).
  rewrite (bind_ok _ _ _ _ _ E1), (bind_ok _ _ _ _ _ E2), (bind_ok _ _ _ _ _ E3),
          (bind_ok _ _ _ _ _ E4), (bind_ok _ _ _ _ _ E5), (bind_ok _ _ _ _ _ E6).
  exists ag, ge, co, su, pl, st, g6. repeat split; tauto.
Qed.

(** C9. For every positive integer N, [generate_users(N)] returns a table of
    exactly N rows, whose [user_id] column is 1, 2, ..., N, and whose
    categorical values all belong to the declared symbol list of their
    column; the generator is assumed to behave as numpy documents. *)
Theorem generate_users_spec (N : Z) (g : rng_state) :
  0 < N ->
  exists users g',
    generate_users N g = Ok (users, g') /\
    Z.of_nat (length users) = N /\
    map User.user_id users = map Z.of_nat (seq 1 (Z.to_nat N)) /\
    Forall user_symbols_declared users.
Proof.
  intros HN.
  destruct (generate_users_columns N g HN)
    as (ag & ge & co & su & pl & st & g' & E
        & [Lag Iag] & [Lge Ige] & [Lco Ico] & [Lsu Isu] & [Lpl Ipl] & [Lst Ist]).
  destruct (users_frame_ok (Z.to_nat N) (arange 1 (N + 1)) ag ge co su pl st
              (arange_from_one_length N) Lag Lge Lco Lsu Lpl Lst)
    as (users & Ef & Lu & Hid & Hin).
  exists users, g'. rewrite E. unfold lift. rewrite Ef. repeat split.
  - rewrite Lu. lia.
  - rewrite Hid. apply arange_from_one.
  - rewrite Forall_forall in *. intros u Hu.
    destruct (Hin u Hu) as (Ha & Hg & Hc & Hs & Hp & Ht).
    unfold user_symbols_declared. repeat split; auto.
Qed.

End GenerateFacts.

Lemma generate_users_spec_witness :
  exists users g',
    Generate.generate_users (RNG := Toy.counter) 3 0 = Run.Ok (users, g') /\
    Z.of_nat (length users) = 3 /\
    map User.user_id users = map Z.of_nat (seq 1 (Z.to_nat 3)) /\
    Forall GenerateSpec.user_symbols_declared users.
Proof.
  apply (generate_users_spec counter_laws 3 0). lia.
Defined.

(** ** The joins *)

Section JoinFacts.
Import Run Generate JoinSpec.

Lemma event_of_wide_row (e : TrackedEvent) (u : option User.t) (t : option Track.t) :
  event_of (wide_row e u t) = e.
Proof. destruct e as [[sid uid pos tod dt loc] tid]. reflexivity. Qed.

End JoinFacts.

(** ** The whole run *)

Section PipelineFacts.
Import Run Generate ExpandSpec.
Context {RNG : Generator} (laws : GeneratorLaws RNG).

Lemma tracks_frame_ok (n : nat) (ids : list Z) (ge : list string) (po : list Z)
    (ac da en : list float) (te du : list Z) :
  length ids = n -> length ge = n -> length po = n -> length ac = n ->
  length da = n -> length en = n -> length te = n -> length du = n ->
  exists tracks, tracks_frame ids ge po ac da en te du = Ok tracks.
Proof.
  intros Hids Hge Hpo Hac Hda Hen Hte Hdu.
  unfold tracks_frame, same_length. cbn [forallb].
  rewrite Hids, Hge, Hpo, Hac, Hda, Hen, Hte, Hdu, Nat.eqb_refl. cbn [andb].
  eexists. reflexivity.
Qed.

(** Six columns of one length make a sessions frame of that many rows, whose
    lengths are cells of the length column. *)
Lemma sessions_frame_ok (n : nat) (ids us : list Z) (td dt lo : list string)
    (sl : list Z) :
  length ids = n -> length us = n -> length td = n -> length dt = n ->
  length lo = n -> length sl = n ->
  exists sessions,
    sessions_frame ids us td dt lo sl = Ok sessions /\
    length sessions = n /\
    Forall (fun s => In (Session.session_length s) sl) sessions.
Proof.
  intros Hids Hus Htd Hdt Hlo Hsl.
  unfold sessions_frame, same_length. cbn [forallb].
  rewrite Hids, Hus, Htd, Hdt, Hlo, Hsl, Nat.eqb_refl. cbn [andb].
  eexists. split; [reflexivity|].
  assert (L5 : length (combine lo sl) = n)
    by (rewrite length_combine_same; congruence).
  assert (L4 : length (combine dt (combine lo sl)) = n)
    by (rewrite length_combine_same; congruence).
  assert (L3 : length (combine td (combine dt (combine lo sl))) = n)
    by (rewrite length_combine_same; congruence).
  assert (L2 : length (combine us (combine td (combine dt (combine lo sl)))) = n)
    by (rewrite length_combine_same; congruence).
  split.
  - rewrite length_map, length_combine_same; congruence.
  - apply Forall_forall. intros s Hs.
    apply in_map_iff in Hs.
    destruct Hs as [[i [u [t [d [l m]]]]] [<- Hin]]. cbn.
    do 5 apply in_combine_r in Hin. exact Hin.
Qed.

(** With a count that is not negative, [generate_tracks] returns a table. *)
Lemma generate_tracks_ok (n : Z) (g : rng_state) :
  0 <= n -> exists tracks g', generate_tracks n g = Ok (tracks, g').
Proof.
  intros H0.
  unfold generate_tracks.
  destruct (choice_ok laws GENRES GENRE_WEIGHTS n g H0 ltac:(discriminate))
    as (ge & g1 & E1 & Lge & _).
  destruct (integers_ok laws 0 101 n g1 H0 ltac:(lia)) as (po & g2 & E2 & Lpo & _).
  destruct (random_ok laws n g2 H0) as (ac & g3 & E3 & Lac).
  destruct (random_ok laws n g3 H0) as (da & g4 & E4 & Lda).
  destruct (random_ok laws n g4 H0) as (en & g5 & E5 & Len).
  destruct (integers_ok laws 60 181 n g5 H0 ltac:(lia)) as (te & g6 & E6 & Lte & _).
  destruct (integers_ok laws 120 360 n g6 H0 ltac:(lia)) as (du & g7 & E7 & Ldu & _).
  rewrite (bind_ok _ _ _ _ _ E1), (bind_ok _ _ _ _ _ E2), (bind_ok _ _ _ _ _ E3),
          (bind_ok _ _ _ _ _ E4), (bind_ok _ _ _ _ _ E5), (bind_ok _ _ _ _ _ E6),
          (bind_ok _ _ _ _ _ E7).
  destruct (tracks_frame_ok (Z.to_nat n) (arange 1 (n + 1)) ge po ac da en te du
              (arange_from_one_length n) Lge Lpo Lac Lda Len Lte Ldu)
    as (tracks & Ef).
  exists tracks, g7. unfold lift. now rewrite Ef.
Qed.

(** With positive counts, [generate_sessions] returns a table of
    [n_sessions] sessions, each of a length in 5..39. *)
Lemma generate_sessions_ok (d : Dims) (n : Z) (g : rng_state) :
  0 < N_USERS d -> 0 < n ->
  exists sessions g',
    generate_sessions d n g = Ok (sessions, g') /\
    length sessions = Z.to_nat n /\
    Forall (fun s => 5 <= Session.session_length s < 40) sessions.
Proof.
  intros Hu Hn. assert (H0 : 0 <= n) by lia.
  unfold generate_sessions.
  destruct (integers_ok laws 1 (N_USERS d + 1) n g H0 ltac:(lia))
    as (us & g1 & E1 & Lus & _).
  destruct (choice_ok laws TIME_OF_DAY TOD_WEIGHTS n g1 H0 ltac:(discriminate))
    as (td & g2 & E2 & Ltd & _).
  destruct (choice_ok laws DAY_TYPE DAY_WEIGHTS n g2 H0 ltac:(discriminate))
    as (dt & g3 & E3 & Ldt & _).
  destruct (choice_ok laws LOCATIONS LOC_WEIGHTS n g3 H0 ltac:(discriminate))
    as (lo & g4 & E4 & Llo & _).
  destruct (integers_ok laws 5 40 n g4 H0 ltac:(lia)) as (sl & g5 & E5 & Lsl & Rsl).
  rewrite (bind_ok _ _ _ _ _ E1), (bind_ok _ _ _ _ _ E2), (bind_ok _ _ _ _ _ E3),
          (bind_ok _ _ _ _ _ E4), (bind_ok _ _ _ _ _ E5).
  destruct (sessions_frame_ok (Z.to_nat n) (arange 1 (n + 1)) us td dt lo sl
              (arange_from_one_length n) Lus Ltd Ldt Llo Lsl)
    as (sessions & Ef & Ls & Hin).
  exists sessions, g5. unfold lift. rewrite Ef. repeat split.
  - exact Ls.
  - rewrite Forall_forall in *. intros s Hs. apply Rsl. now apply Hin.
Qed.

Lemma total_length_positive (sessions : list Session.t) :
  sessions <> [] ->
  Forall (fun s => 5 <= Session.session_length s < 40) sessions ->
  0 < total_length sessions.
Proof.
  intros Hne Hall. destruct Hall as [|s ss Hs Hss]; [contradiction|].
  cbn [total_length fold_right].
  assert (0 <= total_length ss).
  { clear Hne Hs. induction Hss as [|s' ss' Hs' _ IH]; cbn; [lia|].
    unfold total_length in IH. lia. }
  unfold total_length in *. lia.
Qed.

(** A non-empty sessions table with lengths in 5..39 expands to a non-empty
    events table. *)
Lemma expand_nonempty (sessions : list Session.t) :
  sessions <> [] ->
  Forall (fun s => 5 <= Session.session_length s < 40) sessions ->
  expand_sessions_to_events sessions <> [].
Proof.
  intros Hne Hall Hnil.
  pose proof (total_length_positive sessions Hne Hall) as Hpos.
  assert (Hnn : Forall (fun s => 0 <= Session.session_length s) sessions).
  { eapply Forall_impl; [|exact Hall]. cbn. intros; lia. }
  pose proof (expand_length sessions Hnn) as Hlen.
  rewrite <- expand_flat_map, Hnil in Hlen. cbn in Hlen. lia.
Qed.

End PipelineFacts.

(** ** The sequence loader *)

Section SequenceFacts.
Import Run SequenceDataset.

Lemma slice_to_length {A : Type} (k : Z) (l : list A) :
  0 <= k <= Z.of_nat (length l) -> length (slice_to k l) = Z.to_nat k.
Proof.
  intros Hk. unfold slice_to.
  destruct (Z.leb_spec 0 k) as [_|Hneg]; [|lia].
  rewrite length_firstn. lia.
Qed.

(** Every item of a dataset with a non-negative [max_len] has exactly
    [max_len] labels, however many events its session has. *)
Lemma getitem_length (df : list Obs) (nf : nat) (ml : Z) (idx : nat) (item : Item) :
  0 <= ml ->
  getitem (init df nf ml) idx = Ok item ->
  Z.of_nat (labels_len (snd item)) = ml.
Proof.
  intros Hml. unfold getitem, init. cbn [sessions max_len n_features].
  rewrite nth_error_map.
  destruct (nth_error (groupby df) idx) as [kg|]; cbn [option_map]; [|discriminate].
  rewrite length_map.
  set (g := sort_values position (snd kg)).
  destruct (Z.ltb_spec 0 (ml - Z.of_nat (length g))) as [Hpad|Hcut];
    intros [= <-]; cbn [snd labels_len].
  - rewrite length_app, repeat_length, !length_map. lia.
  - rewrite slice_to_length; [lia | rewrite length_map; lia].
Qed.

Lemma fetch_lengths (df : list Obs) (nf : nat) (ml : Z) (idxs : list nat)
    (batch : list Item) :
  0 <= ml ->
  fetch (init df nf ml) idxs = Ok batch ->
  Forall (fun item => Z.of_nat (labels_len (snd item)) = ml) batch.
Proof.
  intros Hml. revert batch. induction idxs as [|i idxs IH]; intros batch; cbn [fetch].
  - intros [= <-]. constructor.
  - destruct (getitem (init df nf ml) i) as [item|msg] eqn:Ei; [|discriminate].
    destruct (fetch (init df nf ml) idxs) as [items|msg] eqn:Ef; [|discriminate].
    intros [= <-]. constructor.
    + eapply getitem_length; eassumption.
    + now apply IH.
Qed.

(** The lengths a batch exposes are all [max_len]: they are taken from the
    items, which are already padded or truncated. *)
Lemma load_batch_lengths (df : list Obs) (nf : nat) (ml : Z) (idxs : list nat)
    xs ys (lengths : list Z) :
  0 <= ml ->
  load_batch (init df nf ml) idxs = Ok (xs, ys, lengths) ->
  Forall (fun n => n = ml) lengths.
Proof.
  intros Hml. unfold load_batch.
  destruct (fetch (init df nf ml) idxs) as [batch|msg] eqn:Ef; [|discriminate].
  pose proof (fetch_lengths df nf ml idxs batch Hml Ef) as Hall.
  unfold collate_fn.
  destruct (stack (map fst batch)) as [xs'|msg]; [|discriminate].
  destruct (stack_labels (map snd batch)) as [ys'|msg]; [|discriminate].
  intros [= _ _ <-].
  apply Forall_map. exact Hall.
Qed.

End SequenceFacts.

(** C6, on a session of five events loaded with the default [max_len] of
    50: the session has five events, and the batch exposes the length 50. *)
Theorem collate_lengths_are_padded_lengths :
  SequenceDataset.true_length short_session 0 = Some 5 /\
  match SequenceDataset.load_batch (SequenceDataset.init short_session 1 50) [0%nat] with
  | Run.Ok (_, _, lengths) => lengths = [50]
  | Run.Error _ => False
  end.
Proof. split; reflexivity. Qed.

(** ** The Tracks and Sessions tables *)

Section TableFacts.
Import Run Generate TableSpec.
Context {RNG : Generator} (laws : GeneratorLaws RNG).

(** A call of [random] with a non-negative size returns [size] doubles of
    [0, 1). *)
Lemma random_unit (size : Z) (g : rng_state) :
  0 <= size ->
  exists xs g', random size g = Ok (xs, g') /\
                length xs = Z.to_nat size /\ Forall unit_float xs.
Proof.
  intros Hsize. unfold random.
  destruct (Z.ltb_spec size 0) as [Hneg|_]; [lia|].
  destruct (rng_random (Z.to_nat size) g) as [xs g'] eqn:E.
  exists xs, g'. repeat split.
  - pose proof (random_length RNG laws (Z.to_nat size) g) as Hl.
    now rewrite E in Hl.
  - apply Forall_forall. intros v Hv.
    apply (random_range RNG laws (Z.to_nat size) g v). now rewrite E.
Qed.

(** Eight columns of one length make a frame of that many tracks, whose
    cells are the cells of the columns. *)
Lemma tracks_frame_cells (n : nat) (ids : list Z) (ge : list string) (po : list Z)
    (ac da en : list float) (te du : list Z) :
  length ids = n -> length ge = n -> length po = n -> length ac = n ->
  length da = n -> length en = n -> length te = n -> length du = n ->
  exists tracks,
    tracks_frame ids ge po ac da en te du = Ok tracks /\
    length tracks = n /\
    map Track.track_id tracks = ids /\
    Forall (fun t => In (Track.genre t) ge /\ In (Track.popularity t) po /\
                     In (Track.acousticness t) ac /\ In (Track.danceability t) da /\
                     In (Track.energy t) en /\ In (Track.tempo t) te /\
                     In (Track.duration_sec t) du) tracks.
Proof.
  intros Hids Hge Hpo Hac Hda Hen Hte Hdu.
  unfold tracks_frame, same_length. cbn [forallb].
  rewrite Hids, Hge, Hpo, Hac, Hda, Hen, Hte, Hdu, Nat.eqb_refl. cbn [andb].
  eexists. split; [reflexivity|].
  assert (L7 : length (combine te du) = n)
    by (rewrite length_combine_same; [assumption | congruence]).
  assert (L6 : length (combine en (combine te du)) = n)
    by (rewrite length_combine_same; [assumption | congruence]).
  assert (L5 : length (combine da (combine en (combine te du))) = n)
    by (rewrite length_combine_same; [assumption | congruence]).
  assert (L4 : length (combine ac (combine da (combine en (combine te du)))) = n)
    by (rewrite length_combine_same; [assumption | congruence]).
  assert (L3 : length (combine po (combine ac (combine da (combine en
                 (combine te du))))) = n)
    by (rewrite length_combine_same; [assumption | congruence]).
  assert (L2 : length (combine ge (combine po (combine ac (combine da (combine en
                 (combine te du)))))) = n)
    by (rewrite length_combine_same; [assumption | congruence]).
  repeat split.
  - rewrite length_map, length_combine_same by (rewrite Hids, L2; reflexivity).
    exact Hids.
  - rewrite map_map.
    rewrite <- (map_fst_combine ids
      (combine ge (combine po (combine ac (combine da (combine en
         (combine te du)))))))
      at 2 by (rewrite Hids, L2; reflexivity).
    apply map_ext. intros [i [g [p [a [d [e [t u]]]]]]]. reflexivity.
  - apply Forall_forall. intros t Ht.
    apply in_map_iff in Ht.
    destruct Ht as [[i [g [p [a [d [e [t0 u]]]]]]] [<- Hin]]. cbn.
    apply in_combine_r in Hin. pose proof (in_combine_l _ _ _ _ Hin) as H1.
    apply in_combine_r in Hin. pose proof (in_combine_l _ _ _ _ Hin) as H2.
    apply in_combine_r in Hin. pose proof (in_combine_l _ _ _ _ Hin) as H3.
    apply in_combine_r in Hin. pose proof (in_combine_l _ _ _ _ Hin) as H4.
    apply in_combine_r in Hin. pose proof (in_combine_l _ _ _ _ Hin) as H5.
    apply in_combine_r in Hin. pose proof (in_combine_l _ _ _ _ Hin) as H6.
    apply in_combine_r in Hin.
    repeat split; assumption.
Qed.

(** With a non-negative count, [generate_tracks] draws its seven columns,
    each of [N] values of its own range, and builds the frame from them and
    the ids. *)
Lemma generate_tracks_columns (N : Z) (g : rng_state) :
  0 <= N ->
  exists ge po ac da en te du g',
    generate_tracks N g
    = lift (tracks_frame (arange 1 (N + 1)) ge po ac da en te du) g' /\
    (length ge = Z.to_nat N /\ Forall (fun s => In s GENRES) ge) /\
    (length po = Z.to_nat N /\ Forall (fun v => 0 <= v < 101) po) /\
    (length ac = Z.to_nat N /\ Forall unit_float ac) /\
    (length da = Z.to_nat N /\ Forall unit_float da) /\
    (length en = Z.to_nat N /\ Forall unit_float en) /\
    (length te = Z.to_nat N /\ Forall (fun v => 60 <= v < 181) te) /\
    (length du = Z.to_nat N /\ Forall (fun v => 120 <= v < 360) du).
Proof.
  intros H0. unfold generate_tracks.
  destruct (choice_ok laws GENRES GENRE_WEIGHTS N g H0 ltac:(discriminate))
    as (ge & g1 & E1 & Hge).
  destruct (integers_ok laws 0 101 N g1 H0 ltac:(lia)) as (po & g2 & E2 & Hpo).
  destruct (random_unit N g2 H0) as (ac & g3 & E3 & Hac).
  destruct (random_unit N g3 H0) as (da & g4 & E4 & Hda).
  destruct (random_unit N g4 H0) as (en & g5 & E5 & Hen).
  destruct (integers_ok laws 60 181 N g5 H0 ltac:(lia)) as (te & g6 & E6 & Hte).
  destruct (integers_ok laws 120 360 N g6 H0 ltac:(lia)) as (du & g7 & E7 & Hdu).
  rewrite (bind_ok _ _ _ _ _ E1), (bind_ok _ _ _ _ _ E2), (bind_ok _ _ _ _ _ E3),
          (bind_ok _ _ _ _ _ E4), (bind_ok _ _ _ _ _ E5), (bind_ok _ _ _ _ _ E6),
          (bind_ok _ _ _ _ _ E7).
  exists ge, po, ac, da, en, te, du, g7. repeat split; tauto.
Qed.

(** X1. For every non-negative N, [generate_tracks(N)] returns a table of
    exactly N rows, whose [track_id] column is 1, 2, ..., N, with a declared
    genre, a popularity in 0..100, a tempo in 60..180, a duration in 120..359
    and the three audio features in [0, 1); the generator is assumed to behave
    as numpy documents. *)
Theorem generate_tracks_spec (N : Z) (g : rng_state) :
  0 <= N ->
  exists tracks g',
    generate_tracks N g = Ok (tracks, g') /\
    Z.of_nat (length tracks) = N /\
    map Track.track_id tracks = map Z.of_nat (seq 1 (Z.to_nat N)) /\
    Forall track_declared tracks.
Proof.
  intros HN.
  destruct (generate_tracks_columns N g HN)
    as (ge & po & ac & da & en & te & du & g' & E
        & [Lge Ige] & [Lpo Ipo] & [Lac Iac] & [Lda Ida] & [Len Ien]
        & [Lte Ite] & [Ldu Idu]).
  destruct (tracks_frame_cells (Z.to_nat N) (arange 1 (N + 1)) ge po ac da en te du
              (arange_from_one_length N) Lge Lpo Lac Lda Len Lte Ldu)
    as (tracks & Ef & Lt & Hid & Hin).
  exists tracks, g'. rewrite E. unfold lift. rewrite Ef. repeat split.
  - rewrite Lt. lia.
  - rewrite Hid. apply arange_from_one.
  - rewrite Forall_forall in *. intros t Ht.
    destruct (Hin t Ht) as (H1 & H2 & H3 & H4 & H5 & H6 & H7).
    pose proof (Ipo _ H2). pose proof (Ite _ H6). pose proof (Idu _ H7).
    unfold track_declared. repeat split; auto; try lia;
      try (apply Iac; assumption); try (apply Ida; assumption);
      try (apply Ien; assumption).
Qed.

(** Six columns of one length make a frame of that many sessions, whose
    cells are the cells of the columns. *)
Lemma sessions_frame_cells (n : nat) (ids us : list Z) (td dt lo : list string)
    (sl : list Z) :
  length ids = n -> length us = n -> length td = n -> length dt = n ->
  length lo = n -> length sl = n ->
  exists sessions,
    sessions_frame ids us td dt lo sl = Ok sessions /\
    length sessions = n /\
    map Session.session_id sessions = ids /\
    Forall (fun s => In (Session.user_id s) us /\ In (Session.time_of_day s) td /\
                     In (Session.day_type s) dt /\ In (Session.location s) lo /\
                     In (Session.session_length s) sl) sessions.
Proof.
  intros Hids Hus Htd Hdt Hlo Hsl.
  unfold sessions_frame, same_length. cbn [forallb].
  rewrite Hids, Hus, Htd, Hdt, Hlo, Hsl, Nat.eqb_refl. cbn [andb].
  eexists. split; [reflexivity|].
  assert (L5 : length (combine lo sl) = n)
    by (rewrite length_combine_same; [assumption | congruence]).
  assert (L4 : length (combine dt (combine lo sl)) = n)
    by (rewrite length_combine_same; [assumption | congruence]).
  assert (L3 : length (combine td (combine dt (combine lo sl))) = n)
    by (rewrite length_combine_same; [assumption | congruence]).
  assert (L2 : length (combine us (combine td (combine dt (combine lo sl)))) = n)
    by (rewrite length_combine_same; [assumption | congruence]).
  repeat split.
  - rewrite length_map, length_combine_same by (rewrite Hids, L2; reflexivity).
    exact Hids.
  - rewrite map_map.
    rewrite <- (map_fst_combine ids
      (combine us (combine td (combine dt (combine lo sl)))))
      at 2 by (rewrite Hids, L2; reflexivity).
    apply map_ext. intros [i [u [t [d [l m]]]]]. reflexivity.
  - apply Forall_forall. intros s Hs.
    apply in_map_iff in Hs.
    destruct Hs as [[i [u [t [d [l m]]]]] [<- Hin]]. cbn.
    apply in_combine_r in Hin. pose proof (in_combine_l _ _ _ _ Hin) as H1.
    apply in_combine_r in Hin. pose proof (in_combine_l _ _ _ _ Hin) as H2.
    apply in_combine_r in Hin. pose proof (in_combine_l _ _ _ _ Hin) as H3.
    apply in_combine_r in Hin. pose proof (in_combine_l _ _ _ _ Hin) as H4.
    apply in_combine_r in Hin.
    repeat split; assumption.
Qed.

(** With a non-negative count and at least one user, [generate_sessions]
    draws its five columns, each of [n] values of its own range, and builds
    the frame from them and the ids. *)
Lemma generate_sessions_columns (d : Dims) (n : Z) (g : rng_state) :
  0 < N_USERS d -> 0 <= n ->
  exists us td dt lo sl g',
    generate_sessions d n g
    = lift (sessions_frame (arange 1 (n + 1)) us td dt lo sl) g' /\
    (length us = Z.to_nat n /\ Forall (fun v => 1 <= v < N_USERS d + 1) us) /\
    (length td = Z.to_nat n /\ Forall (fun s => In s TIME_OF_DAY) td) /\
    (length dt = Z.to_nat n /\ Forall (fun s => In s DAY_TYPE) dt) /\
    (length lo = Z.to_nat n /\ Forall (fun s => In s LOCATIONS) lo) /\
    (length sl = Z.to_nat n /\ Forall (fun v => 5 <= v < 40) sl).
Proof.
  intros Hu H0. unfold generate_sessions.
  destruct (integers_ok laws 1 (N_USERS d + 1) n g H0 ltac:(lia))
    as (us & g1 & E1 & Hus).
  destruct (choice_ok laws TIME_OF_DAY TOD_WEIGHTS n g1 H0 ltac:(discriminate))
    as (td & g2 & E2 & Htd).
  destruct (choice_ok laws DAY_TYPE DAY_WEIGHTS n g2 H0 ltac:(discriminate))
    as (dt & g3 & E3 & Hdt).
  destruct (choice_ok laws LOCATIONS LOC_WEIGHTS n g3 H0 ltac:(discriminate))
    as (lo & g4 & E4 & Hlo).
  destruct (integers_ok laws 5 40 n g4 H0 ltac:(lia)) as (sl & g5 & E5 & Hsl).
  rewrite (bind_ok _ _ _ _ _ E1), (bind_ok _ _ _ _ _ E2), (bind_ok _ _ _ _ _ E3),
          (bind_ok _ _ _ _ _ E4), (bind_ok _ _ _ _ _ E5).
  exists us, td, dt, lo, sl, g5. repeat split; tauto.
Qed.

Lemma sessions_cells_declared (d : Dims) (us : list Z) (td dt lo : list string)
    (sl : list Z) (s : Session.t) :
  Forall (fun v => 1 <= v < N_USERS d + 1) us ->
  Forall (fun s => In s TIME_OF_DAY) td ->
  Forall (fun s => In s DAY_TYPE) dt ->
  Forall (fun s => In s LOCATIONS) lo ->
  Forall (fun v => 5 <= v < 40) sl ->
  In (Session.user_id s) us /\ In (Session.time_of_day s) td /\
  In (Session.day_type s) dt /\ In (Session.location s) lo /\
  In (Session.session_length s) sl ->
  session_declared d s.
Proof.
  rewrite !Forall_forall. intros Ius Itd Idt Ilo Isl (H1 & H2 & H3 & H4 & H5).
  pose proof (Ius _ H1). pose proof (Isl _ H5).
  unfold session_declared. repeat split; auto; lia.
Qed.

(** X2. For every non-negative count n and at least one user,
    [generate_sessions(n)] returns a table of exactly n rows, whose
    [session_id] column is 1, 2, ..., n, whose [user_id] values are ids of
    the Users table (1..N_USERS), whose categorical values are declared ones,
    and whose lengths lie in 5..39; the generator is assumed to behave as
    numpy documents. *)
Theorem generate_sessions_spec (d : Dims) (n : Z) (g : rng_state) :
  0 < N_USERS d -> 0 <= n ->
  exists sessions g',
    generate_sessions d n g = Ok (sessions, g') /\
    Z.of_nat (length sessions) = n /\
    map Session.session_id sessions = map Z.of_nat (seq 1 (Z.to_nat n)) /\
    Forall (session_declared d) sessions.
Proof.
  intros Hu Hn.
  destruct (generate_sessions_columns d n g Hu Hn)
    as (us & td & dt & lo & sl & g' & E
        & [Lus Ius] & [Ltd Itd] & [Ldt Idt] & [Llo Ilo] & [Lsl Isl]).
  destruct (sessions_frame_cells (Z.to_nat n) (arange 1 (n + 1)) us td dt lo sl
              (arange_from_one_length n) Lus Ltd Ldt Llo Lsl)
    as (sessions & Ef & Ls & Hid & Hin).
  exists sessions, g'. rewrite E. unfold lift. rewrite Ef. repeat split.
  - rewrite Ls. lia.
  - rewrite Hid. apply arange_from_one.
  - apply Forall_forall. intros s Hs. rewrite Forall_forall in Hin.
    apply (sessions_cells_declared d us td dt lo sl); auto.
Qed.

(** With at least one track, [assign_tracks] draws one id of 1..N_TRACKS
    per event and sets the column. *)
Lemma assign_tracks_column (d : Dims) (events : list Event.t) (tracks : list Track.t)
    (g : rng_state) :
  0 < N_TRACKS d ->
  exists ids g',
    assign_tracks d events tracks g = Ok (combine events ids, g') /\
    length ids = length events /\
    Forall (fun v => 1 <= v < N_TRACKS d + 1) ids.
Proof.
  intros Ht. unfold assign_tracks.
  destruct (integers_ok laws 1 (N_TRACKS d + 1) (Z.of_nat (length events)) g
              ltac:(lia) ltac:(lia)) as (ids & g1 & E1 & Lids & Rids).
  rewrite (bind_ok _ _ _ _ _ E1). rewrite Nat2Z.id in Lids.
  unfold lift, set_track_id. rewrite Lids, Nat.eqb_refl.
  exists ids, g1. repeat split; assumption.
Qed.

(** X3. With at least one track, [assign_tracks] keeps every event, in
    order, and gives each a [track_id] of 1..N_TRACKS, an id of the Tracks
    table; the generator is assumed to behave as numpy documents. *)
Theorem assign_tracks_spec (d : Dims) (events : list Event.t) (tracks : list Track.t)
    (g : rng_state) :
  0 < N_TRACKS d ->
  exists tracked g',
    assign_tracks d events tracks g = Ok (tracked, g') /\
    map fst tracked = events /\
    Forall (fun e => 1 <= snd e <= N_TRACKS d) tracked.
Proof.
  intros Ht.
  destruct (assign_tracks_column d events tracks g Ht) as (ids & g' & E & L & R).
  exists (combine events ids), g'. split; [exact E|]. split.
  - apply map_fst_combine. now symmetry.
  - apply Forall_forall. intros [e v] Hin. cbn [snd].
    apply in_combine_r in Hin. rewrite Forall_forall in R.
    specialize (R v Hin). lia.
Qed.

End TableFacts.

Lemma generate_tracks_spec_witness :
  exists tracks g',
    Generate.generate_tracks (RNG := Toy.counter) 4 0 = Run.Ok (tracks, g') /\
    Z.of_nat (length tracks) = 4 /\
    map Track.track_id tracks = map Z.of_nat (seq 1 (Z.to_nat 4)) /\
    Forall TableSpec.track_declared tracks.
Proof.
  apply (generate_tracks_spec counter_laws 4 0). lia.
Defined.

Lemma generate_sessions_spec_witness :
  exists sessions g',
    Generate.generate_sessions (RNG := Toy.counter) Generate.source_dims 3 0
    = Run.Ok (sessions, g') /\
    Z.of_nat (length sessions) = 3 /\
    map Session.session_id sessions = map Z.of_nat (seq 1 (Z.to_nat 3)) /\
    Forall (TableSpec.session_declared Generate.source_dims) sessions.
Proof.
  apply (generate_sessions_spec counter_laws Generate.source_dims 3 0); cbn; lia.
Defined.

Lemma assign_tracks_spec_witness :
  exists tracked g',
    Generate.assign_tracks (RNG := Toy.counter) Generate.source_dims
      (Generate.expand_sessions_to_events two_sessions) [known_track] 0
    = Run.Ok (tracked, g') /\
    map fst tracked = Generate.expand_sessions_to_events two_sessions /\
    Forall (fun e => 1 <= snd e <= Generate.N_TRACKS Generate.source_dims) tracked.
Proof.
  apply (assign_tracks_spec counter_laws Generate.source_dims). cbn. lia.
Defined.

(** ** The expander, whatever the lengths *)

Section ExpandMembership.
Import Run Generate ExpandSpec.

Lemma in_range_iff (n v : Z) : In v (range n) <-> 0 <= v < n.
Proof.
  unfold range. rewrite in_map_iff. split.
  - intros [i [<- Hi]]. apply in_seq in Hi. lia.
  - intros Hv. exists (Z.to_nat v). split; [lia|]. apply in_seq. lia.
Qed.

(** The events of one session: one per position from 1 to its length. *)
Lemma in_session_events (s : Session.t) (e : Event.t) :
  In e (session_events s) <->
  exists pos, 1 <= pos <= Session.session_length s /\
    e = Event.mk (Session.session_id s) (Session.user_id s) pos
          (Session.time_of_day s) (Session.day_type s) (Session.location s).
Proof.
  unfold session_events. rewrite in_map_iff. split.
  - intros [v [<- Hv]]. apply in_range_iff in Hv.
    exists (v + 1). split; [lia | reflexivity].
  - intros [pos [Hpos ->]]. exists (pos - 1). split.
    + f_equal. lia.
    + apply in_range_iff. lia.
Qed.

(** X4. Whatever the lengths of the sessions, the expander emits exactly the
    events (session, position) with the session in the table and the position
    between 1 and its length: it emits nothing else, and nothing for a session
    whose length is zero or negative. *)
Theorem expanded_events_are_session_positions (sessions_df : list Session.t)
    (e : Event.t) :
  In e (expand_sessions_to_events sessions_df) <->
  exists s pos,
    In s sessions_df /\ 1 <= pos <= Session.session_length s /\
    e = Event.mk (Session.session_id s) (Session.user_id s) pos
          (Session.time_of_day s) (Session.day_type s) (Session.location s).
Proof.
  rewrite expand_flat_map, in_flat_map. split.
  - intros [s [Hs He]]. apply in_session_events in He.
    destruct He as [pos [Hpos ->]]. exists s, pos. repeat split; assumption || lia.
  - intros [s [pos [Hs [Hpos ->]]]]. exists s. split; [assumption|].
    apply in_session_events. exists pos. split; [assumption | reflexivity].
Qed.

End ExpandMembership.

(** ** Joins against tables with distinct keys *)

Section UniqueKeys.
Import Run Generate JoinSpec.

(** In a table with distinct keys, the rows carrying a key are the one
    [find] returns, if any. *)
Lemma filter_find_unique {R : Type} (key : R -> Z) (k : Z) (right : list R) :
  NoDup (map key right) ->
  filter (fun r => key r =? k) right
  = match find (fun r => key r =? k) right with
    | Some r => [r]
    | None => []
    end.
Proof.
  induction right as [|r right IH]; cbn [map filter find]; intros Hnd.
  - reflexivity.
  - inversion Hnd as [|? ? Hnotin Hnd']; subst.
    destruct (Z.eqb_spec (key r) k) as [Heq|Hne].
    + f_equal.
      assert (Hnone : forall r', In r' right -> (key r' =? k) = false).
      { intros r' Hr'. apply Z.eqb_neq. intros Hk. apply Hnotin.
        rewrite Heq, <- Hk. now apply in_map. }
      clear -Hnone. induction right as [|r' right IH]; cbn [filter].
      * reflexivity.
      * rewrite (Hnone r') by now left.
        apply IH. intros r'' Hr''. apply Hnone. now right.
    + now apply IH.
Qed.

(** A left join against a table with distinct keys makes one row of each
    left row, in order. *)
Lemma merge_left_unique {L R O : Type} (key_l : L -> Z) (key_r : R -> Z)
    (join : L -> option R -> O) (left : list L) (right : list R) :
  NoDup (map key_r right) ->
  merge_left key_l key_r join left right
  = map (fun l => join l (find (fun r => key_r r =? key_l l) right)) left.
Proof.
  intros Hnd. unfold merge_left.
  induction left as [|l left IH]; cbn [flat_map].
  - reflexivity.
  - rewrite IH, (filter_find_unique key_r (key_l l) right Hnd).
    cbn [map].
    destruct (find (fun r => key_r r =? key_l l) right); reflexivity.
Qed.

(** The wide rows of a table of events, each next to the user and the track
    its ids look up. *)
Lemma join_stage_unique (events_df : list TrackedEvent) (users_df : list User.t)
    (tracks_df : list Track.t) :
  events_df <> [] ->
  NoDup (map User.user_id users_df) ->
  NoDup (map Track.track_id tracks_df) ->
  join_stage events_df users_df tracks_df
  = Ok (map (fun e => wide_row e
               (find (fun u => User.user_id u =? Event.user_id (fst e)) users_df)
               (find (fun t => Track.track_id t =? snd e) tracks_df))
          events_df).
Proof.
  intros Hne Hu Ht. unfold join_stage.
  destruct events_df as [|e0 events]; [contradiction|].
  f_equal.
  rewrite (merge_left_unique (fun e : TrackedEvent => Event.user_id (fst e))
             User.user_id (fun e u => (e, u)) _ users_df Hu).
  rewrite (merge_left_unique
             (fun eu : TrackedEvent * option User.t => snd (fst eu))
             Track.track_id (fun eu t => wide_row (fst eu) (snd eu) t) _ tracks_df Ht).
  rewrite map_map. reflexivity.
Qed.

(** X5. When the user ids and the track ids are distinct, as the entity
    generators make them, the two joins of a non-empty events table return
    exactly one row per event, in the order of the events: no event is
    dropped, none is duplicated, and the table keeps its length. *)
Theorem joins_keep_one_row_per_event (events_df : list TrackedEvent)
    (users_df : list User.t) (tracks_df : list Track.t) :
  events_df <> [] ->
  NoDup (map User.user_id users_df) ->
  NoDup (map Track.track_id tracks_df) ->
  exists rows,
    join_stage events_df users_df tracks_df = Ok rows /\
    map event_of rows = events_df /\
    length rows = length events_df.
Proof.
  intros Hne Hu Ht.
  rewrite (join_stage_unique events_df users_df tracks_df Hne Hu Ht).
  eexists. split; [reflexivity|]. split.
  - rewrite map_map. rewrite <- (map_id events_df) at 2.
    apply map_ext. intros e. apply event_of_wide_row.
  - apply length_map.
Qed.

End UniqueKeys.

Lemma joins_keep_one_row_per_event_witness :
  exists rows,
    Generate.join_stage [matched_event; orphan_event; matched_event]
      [known_user] [known_track]
    = Run.Ok rows /\
    map JoinSpec.event_of rows = [matched_event; orphan_event; matched_event] /\
    length rows = length [matched_event; orphan_event; matched_event].
Proof.
  apply (joins_keep_one_row_per_event [matched_event; orphan_event; matched_event]
           [known_user] [known_track]).
  - discriminate.
  - repeat constructor; cbn; tauto.
  - repeat constructor; cbn; tauto.
Defined.

(** ** The stages of a run, one after the other *)

Section RunTrace.
Import Run Generate GenerateSpec ExpandSpec TableSpec JoinSpec ExportSpec.
Context {RNG : Generator} (laws : GeneratorLaws RNG).

Lemma ids_nodup (n : nat) : NoDup (map Z.of_nat (seq 1 n)).
Proof.
  generalize 1%nat. induction n as [|n IH]; intros a; cbn [seq map].
  - constructor.
  - constructor; [|apply IH].
    intros Hin. apply in_map_iff in Hin. destruct Hin as [i [Hi Hin]].
    apply in_seq in Hin. lia.
Qed.

(** In a table whose keys are 1, ..., n, every key of that range looks up a
    row of the table. *)
Lemma find_by_id {R : Type} (key : R -> Z) (l : list R) (n : nat) (k : Z) :
  map key l = map Z.of_nat (seq 1 n) ->
  1 <= k <= Z.of_nat n ->
  exists r, find (fun r => key r =? k) l = Some r /\ In r l /\ key r = k.
Proof.
  intros Hids Hk.
  destruct (find (fun r => key r =? k) l) as [r|] eqn:E.
  - apply find_some in E. destruct E as [Hin Heq]. apply Z.eqb_eq in Heq.
    exists r. repeat split; assumption.
  - exfalso.
    assert (Hin : In k (map key l)).
    { rewrite Hids. apply in_map_iff. exists (Z.to_nat k).
      split; [lia | apply in_seq; lia]. }
    apply in_map_iff in Hin. destruct Hin as [r [Hr Hin]].
    pose proof (find_none _ _ E r Hin) as Hno. cbn in Hno.
    apply Z.eqb_neq in Hno. contradiction.
Qed.

Lemma tracks_cells_declared (ge : list string) (po : list Z) (ac da en : list float)
    (te du : list Z) (t : Track.t) :
  Forall (fun s => In s GENRES) ge ->
  Forall (fun v => 0 <= v < 101) po ->
  Forall unit_float ac -> Forall unit_float da -> Forall unit_float en ->
  Forall (fun v => 60 <= v < 181) te ->
  Forall (fun v => 120 <= v < 360) du ->
  In (Track.genre t) ge /\ In (Track.popularity t) po /\
  In (Track.acousticness t) ac /\ In (Track.danceability t) da /\
  In (Track.energy t) en /\ In (Track.tempo t) te /\
  In (Track.duration_sec t) du ->
  track_declared t.
Proof.
  rewrite !Forall_forall.
  intros Ige Ipo Iac Ida Ien Ite Idu (H1 & H2 & H3 & H4 & H5 & H6 & H7).
  pose proof (Ipo _ H2). pose proof (Ite _ H6). pose proof (Idu _ H7).
  unfold track_declared. repeat split; auto; try lia.
  - now apply Iac.
  - now apply Iac.
  - now apply Ida.
  - now apply Ida.
  - now apply Ien.
  - now apply Ien.
Qed.

Lemma bind_lift_ok {A B : Type} (a : A) (k : A -> M B) (g : rng_state) :
  bind (lift (Ok a)) k g = k a g.
Proof. reflexivity. Qed.

(** With positive dimensions a run goes through every stage: the three
    entity tables come out with ids 1..N and declared values, every event gets
    a track id, the joins look every id up, and one draw is made per row. *)
Lemma pipeline_trace (d : Dims) (g : rng_state) :
  0 < N_USERS d -> 0 < N_TRACKS d -> 0 < N_SESSIONS d ->
  exists users tracks sessions ids draws g',
    (map User.user_id users = map Z.of_nat (seq 1 (Z.to_nat (N_USERS d))) /\
     Forall user_symbols_declared users) /\
    (map Track.track_id tracks = map Z.of_nat (seq 1 (Z.to_nat (N_TRACKS d))) /\
     Forall track_declared tracks) /\
    (map Session.session_id sessions
     = map Z.of_nat (seq 1 (Z.to_nat (N_SESSIONS d))) /\
     Forall (session_declared d) sessions) /\
    (length ids = length (expand_sessions_to_events sessions) /\
     Forall (fun v => 1 <= v <= N_TRACKS d) ids) /\
    (length draws = length (expand_sessions_to_events sessions) /\
     Forall unit_float draws) /\
    pipeline d g
    = Ok (sampled_rows
            (looked_up_rows (combine (expand_sessions_to_events sessions) ids)
               users tracks)
            draws, g').
Proof.
  intros Hu Ht Hs. unfold pipeline.
  (* users *)
  destruct (generate_users_columns laws (N_USERS d) g Hu)
    as (ag & ge & co & su & pl & st & g1 & E1
        & [Lag Iag] & [Lge Ige] & [Lco Ico] & [Lsu Isu] & [Lpl Ipl] & [Lst Ist]).
  destruct (users_frame_ok (Z.to_nat (N_USERS d)) (arange 1 (N_USERS d + 1))
              ag ge co su pl st (arange_from_one_length (N_USERS d))
              Lag Lge Lco Lsu Lpl Lst) as (users & Ef1 & _ & Hidu & Hinu).
  assert (E1' : generate_users (N_USERS d) g = Ok (users, g1))
    by (rewrite E1; unfold lift; now rewrite Ef1).
  rewrite arange_from_one in Hidu.
  assert (Hdu : Forall user_symbols_declared users).
  { apply Forall_forall. intros u Hin. rewrite Forall_forall in Hinu.
    destruct (Hinu u Hin) as (Ha & Hg & Hc & Hsb & Hp & Hst).
    rewrite Forall_forall in Iag, Ige, Ico, Isu, Ipl, Ist.
    unfold user_symbols_declared. repeat split; auto. }
  (* tracks *)
  destruct (generate_tracks_columns laws (N_TRACKS d) g1 ltac:(lia))
    as (tge & po & ac & da & en & te & du & g2 & E2
        & [Ltge Itge] & [Lpo Ipo] & [Lac Iac] & [Lda Ida] & [Len Ien]
        & [Lte Ite] & [Ldu Idu]).
  destruct (tracks_frame_cells (Z.to_nat (N_TRACKS d)) (arange 1 (N_TRACKS d + 1))
              tge po ac da en te du (arange_from_one_length (N_TRACKS d))
              Ltge Lpo Lac Lda Len Lte Ldu) as (tracks & Ef2 & _ & Hidt & Hint).
  assert (E2' : generate_tracks (N_TRACKS d) g1 = Ok (tracks, g2))
    by (rewrite E2; unfold lift; now rewrite Ef2).
  rewrite arange_from_one in Hidt.
  assert (Hdt : Forall track_declared tracks).
  { apply Forall_forall. intros t Hin. rewrite Forall_forall in Hint.
    apply (tracks_cells_declared tge po ac da en te du); auto. }
  (* sessions *)
  destruct (generate_sessions_columns laws d (N_SESSIONS d) g2 Hu ltac:(lia))
    as (us & td & dt & lo & sl & g3 & E3
        & [Lus Ius] & [Ltd Itd] & [Ldt Idt] & [Llo Ilo] & [Lsl Isl]).
  destruct (sessions_frame_cells (Z.to_nat (N_SESSIONS d))
              (arange 1 (N_SESSIONS d + 1)) us td dt lo sl
              (arange_from_one_length (N_SESSIONS d)) Lus Ltd Ldt Llo Lsl)
    as (sessions & Ef3 & Lss & Hids & Hins).
  assert (E3' : generate_sessions d (N_SESSIONS d) g2 = Ok (sessions, g3))
    by (rewrite E3; unfold lift; now rewrite Ef3).
  rewrite arange_from_one in Hids.
  assert (Hds : Forall (session_declared d) sessions).
  { apply Forall_forall. intros s0 Hin. rewrite Forall_forall in Hins.
    apply (sessions_cells_declared d us td dt lo sl); auto. }
  rewrite (bind_ok _ _ _ _ _ E1'), (bind_ok _ _ _ _ _ E2'), (bind_ok _ _ _ _ _ E3').
  cbv zeta.
  (* track ids *)
  destruct (assign_tracks_column laws d (expand_sessions_to_events sessions)
              tracks g3 Ht) as (ids & g4 & E4 & Lids & Rids).
  rewrite (bind_ok _ _ _ _ _ E4).
  (* joins *)
  assert (Hne : combine (expand_sessions_to_events sessions) ids <> []).
  { intros Hnil.
    assert (Hlen : length (combine (expand_sessions_to_events sessions) ids) = 0%nat)
      by now rewrite Hnil.
    rewrite length_combine_same in Hlen by now symmetry.
    apply length_zero_iff_nil in Hlen. revert Hlen.
    apply expand_nonempty.
    - intros ->. cbn in Lss. lia.
    - eapply Forall_impl; [|exact Hds].
      intros s0 (_ & _ & _ & _ & Hl). lia. }
  rewrite (join_stage_unique _ users tracks Hne).
  2: { rewrite Hidu. apply ids_nodup. }
  2: { rewrite Hidt. apply ids_nodup. }
  rewrite bind_lift_ok.
  (* draws *)
  fold (looked_up_rows (combine (expand_sessions_to_events sessions) ids)
          users tracks).
  destruct (random_unit laws
              (Z.of_nat (length (looked_up_rows
                 (combine (expand_sessions_to_events sessions) ids) users tracks)))
              g4 ltac:(lia)) as (draws & g5 & E5 & Ld & Ud).
  rewrite (bind_ok _ _ _ _ _ E5). rewrite Nat2Z.id in Ld.
  unfold lift, draw_outcome. rewrite Ld, Nat.eqb_refl.
  exists users, tracks, sessions, ids, draws, g5.
  split; [split; assumption|]. split; [split; assumption|].
  split; [split; assumption|]. split; [split|].
  - exact Lids.
  - eapply Forall_impl; [|exact Rids]. intros v Hv. cbn in Hv. lia.
  - split; [|reflexivity]. split; [|exact Ud].
    rewrite Ld. unfold looked_up_rows.
    rewrite length_map. apply length_combine_same. now symmetry.
Qed.

End RunTrace.

(** ** What a run exports *)

Section RunFacts.
Import Run Generate GenerateSpec ExpandSpec TableSpec JoinSpec ExportSpec.
Context {RNG : Generator} (laws : GeneratorLaws RNG).

Lemma id_in_range (n : nat) (k : Z) :
  In k (map Z.of_nat (seq 1 n)) -> 1 <= k <= Z.of_nat n.
Proof.
  intros Hin. apply in_map_iff in Hin. destruct Hin as [i [<- Hi]].
  apply in_seq in Hi. lia.
Qed.

(** The rows of [sampled_rows] are the wide rows it was given, in order,
    when there is one draw per row. *)
Lemma sampled_rows_rows (rows : list Frame.Row) (draws : list float) :
  length draws = length rows ->
  map row (sampled_rows rows draws) = rows.
Proof.
  intros Hl. unfold sampled_rows. rewrite map_map.
  rewrite <- (map_fst_combine rows draws) at 2 by now symmetry.
  apply map_ext. intros [r u]. reflexivity.
Qed.

(** A wide row built from an event of a declared session, a track id of the
    Tracks table, and the user and track the ids look up, is declared. *)
Lemma looked_up_row_declared (d : Dims) (users : list User.t) (tracks : list Track.t)
    (sessions : list Session.t) (e : TrackedEvent) :
  map User.user_id users = map Z.of_nat (seq 1 (Z.to_nat (N_USERS d))) ->
  Forall user_symbols_declared users ->
  map Track.track_id tracks = map Z.of_nat (seq 1 (Z.to_nat (N_TRACKS d))) ->
  Forall track_declared tracks ->
  map Session.session_id sessions = map Z.of_nat (seq 1 (Z.to_nat (N_SESSIONS d))) ->
  Forall (session_declared d) sessions ->
  In (fst e) (expand_sessions_to_events sessions) ->
  1 <= snd e <= N_TRACKS d ->
  row_declared d
    (wide_row e
       (find (fun u => User.user_id u =? Event.user_id (fst e)) users)
       (find (fun t => Track.track_id t =? snd e) tracks)).
Proof.
  intros Hidu Hdu Hidt Hdt Hids Hds Hin Htid.
  rewrite expand_flat_map in Hin. apply in_flat_map in Hin.
  destruct Hin as [s [Hs He]]. apply in_session_events in He.
  destruct He as [pos [Hpos He]].
  rewrite Forall_forall in Hds. destruct (Hds s Hs) as (Huid & Htd & Hdt' & Hlo & Hlen).
  assert (Hsid : 1 <= Session.session_id s <= N_SESSIONS d).
  { assert (Hk : In (Session.session_id s) (map Session.session_id sessions))
      by now apply in_map.
    rewrite Hids in Hk. apply id_in_range in Hk. lia. }
  destruct e as [ev tid]. cbn [fst snd] in *. subst ev. cbn [Event.user_id].
  destruct (find_by_id User.user_id users (Z.to_nat (N_USERS d))
              (Session.user_id s) Hidu ltac:(lia)) as (u & Eu & Hu & _).
  destruct (find_by_id Track.track_id tracks (Z.to_nat (N_TRACKS d)) tid Hidt
              ltac:(lia)) as (t & Et & Ht & _).
  rewrite Eu, Et.
  rewrite Forall_forall in Hdu, Hdt.
  destruct (Hdu u Hu) as (U1 & U2 & U3 & U4 & U5 & U6).
  destruct (Hdt t Ht) as (T1 & T2 & T3 & T4 & T5 & T6 & T7).
  unfold row_declared, wide_row. cbn.
  split; [|split; [|split]].
  - repeat split; lia.
  - repeat split; assumption.
  - repeat split; eexists; (split; [reflexivity | assumption]).
  - split; [eexists; split; [reflexivity | assumption]|].
    split; [eexists; split; [reflexivity | assumption]|].
    split; [assumption|]. split; [assumption|]. split; [assumption|].
    split; eexists; (split; [reflexivity | assumption]).
Qed.

(** X6. With positive dimensions, a run exports a table in which every row
    is complete: both joins found their partner, so no cell is missing; every
    categorical value is a declared symbol, every id is an id of its table,
    the position is in 1..39 and the track numbers are in their ranges; the
    generator is assumed to behave as numpy documents. *)
Theorem exported_rows_are_declared (d : Dims) (g : rng_state) :
  0 < N_USERS d -> 0 < N_TRACKS d -> 0 < N_SESSIONS d ->
  exists table g',
    pipeline d g = Ok (table, g') /\
    Forall (fun o => row_declared d (row o)) table.
Proof.
  intros Hu Ht Hs.
  destruct (pipeline_trace laws d g Hu Ht Hs)
    as (users & tracks & sessions & ids & draws & g'
        & [Hidu Hdu] & [Hidt Hdt] & [Hids Hds] & [Lids Rids] & [Ld _] & E).
  eexists _, g'. split; [exact E|].
  apply (proj1 (Forall_map row (row_declared d) _)).
  rewrite sampled_rows_rows.
  2: { rewrite Ld. unfold looked_up_rows. rewrite length_map.
       symmetry. apply length_combine_same. now symmetry. }
  unfold looked_up_rows. apply Forall_map. apply Forall_forall.
  intros e He.
  apply (looked_up_row_declared d users tracks sessions e); try assumption.
  - destruct e as [ev tid]. now apply in_combine_l in He.
  - destruct e as [ev tid]. apply in_combine_r in He.
    rewrite Forall_forall in Rids. now apply Rids.
Qed.

Lemma total_length_bounds (d : Dims) (sessions : list Session.t) :
  Forall (session_declared d) sessions ->
  5 * Z.of_nat (length sessions) <= total_length sessions
  <= 39 * Z.of_nat (length sessions).
Proof.
  induction 1 as [|s ss Hs _ IH]; cbn [total_length fold_right length].
  - lia.
  - destruct Hs as (_ & _ & _ & _ & Hl). unfold total_length in IH. lia.
Qed.

(** X7. With positive dimensions, the exported table holds exactly one row
    per event the expander makes of the Sessions table, in the expander's
    order: sessions in table order, each at positions 1, 2, ... up to its
    length.  The Sessions table has N_SESSIONS declared rows, so the export
    has between 5 and 39 rows per session; the generator is assumed to behave
    as numpy documents. *)
Theorem exported_table_is_the_expanded_sessions (d : Dims) (g : rng_state) :
  0 < N_USERS d -> 0 < N_TRACKS d -> 0 < N_SESSIONS d ->
  exists sessions table g',
    pipeline d g = Ok (table, g') /\
    map Session.session_id sessions
    = map Z.of_nat (seq 1 (Z.to_nat (N_SESSIONS d))) /\
    Forall (session_declared d) sessions /\
    map (fun o => fst (event_of (row o))) table
    = expand_sessions_to_events sessions /\
    5 * N_SESSIONS d <= Z.of_nat (length table) <= 39 * N_SESSIONS d.
Proof.
  intros Hu Ht Hs.
  destruct (pipeline_trace laws d g Hu Ht Hs)
    as (users & tracks & sessions & ids & draws & g'
        & _ & _ & [Hids Hds] & [Lids _] & [Ld _] & E).
  exists sessions. eexists _, g'. split; [exact E|].
  split; [exact Hids|]. split; [exact Hds|].
  assert (Hrows : length draws
                  = length (looked_up_rows
                      (combine (expand_sessions_to_events sessions) ids)
                      users tracks)).
  { rewrite Ld. unfold looked_up_rows. rewrite length_map.
    symmetry. apply length_combine_same. now symmetry. }
  assert (Hev : map (fun o => fst (event_of (row o)))
                  (sampled_rows
                     (looked_up_rows
                        (combine (expand_sessions_to_events sessions) ids)
                        users tracks) draws)
                = expand_sessions_to_events sessions).
  { rewrite <- (map_map row (fun r => fst (event_of r))).
    rewrite (sampled_rows_rows _ _ Hrows).
    unfold looked_up_rows. rewrite map_map.
    rewrite <- (map_fst_combine (expand_sessions_to_events sessions) ids) at 2
      by now symmetry.
    apply map_ext. intros e. now rewrite event_of_wide_row. }
  split; [exact Hev|].
  rewrite <- (length_map (fun o => fst (event_of (row o)))), Hev.
  rewrite expand_flat_map, expand_length.
  - pose proof (total_length_bounds d sessions Hds) as Hb.
    assert (Hn : Z.of_nat (length sessions) = N_SESSIONS d).
    { rewrite <- (length_map Session.session_id), Hids, length_map, length_seq. lia. }
    rewrite Hn in Hb. exact Hb.
  - eapply Forall_impl; [|exact Hds]. intros s (_ & _ & _ & _ & Hl). lia.
Qed.


End RunFacts.

Lemma exported_rows_are_declared_witness :
  exists table g',
    Generate.pipeline (RNG := Toy.counter) Generate.source_dims 42
    = Run.Ok (table, g') /\
    Forall (fun o => ExportSpec.row_declared Generate.source_dims (Generate.row o))
      table.
Proof.
  apply (exported_rows_are_declared counter_laws Generate.source_dims 42);
    cbn; lia.
Defined.

Lemma exported_table_is_the_expanded_sessions_witness :
  exists sessions table g',
    Generate.pipeline (RNG := Toy.counter) Generate.source_dims 42
    = Run.Ok (table, g') /\
    map Session.session_id sessions
    = map Z.of_nat (seq 1 (Z.to_nat (Generate.N_SESSIONS Generate.source_dims))) /\
    Forall (TableSpec.session_declared Generate.source_dims) sessions /\
    map (fun o => fst (JoinSpec.event_of (Generate.row o))) table
    = Generate.expand_sessions_to_events sessions /\
    5 * Generate.N_SESSIONS Generate.source_dims <= Z.of_nat (length table)
    <= 39 * Generate.N_SESSIONS Generate.source_dims.
Proof.
  apply (exported_table_is_the_expanded_sessions counter_laws
           Generate.source_dims 42); cbn; lia.
Defined.

(** ** What each stage hands to the next *)

Section StageFacts.
Import Run Generate ExpandSpec JoinSpec ExportSpec.
Context {RNG : Generator} (laws : GeneratorLaws RNG).

Lemma same_length_true (n : nat) (others : list nat) :
  same_length n others = true -> Forall (fun m => m = n) others.
Proof.
  unfold same_length. intros H. apply Forall_forall. intros m Hm.
  rewrite forallb_forall in H. specialize (H m Hm).
  apply Nat.eqb_eq in H. now symmetry.
Qed.

(** A Users table that was built has the ids it was given. *)
Lemma users_frame_ids (ids : list Z) (ag ge co su pl st : list string)
    (users : list User.t) :
  users_frame ids ag ge co su pl st = Ok users -> map User.user_id users = ids.
Proof.
  intros H.
  assert (E : same_length (length ids)
                [length ag; length ge; length co; length su; length pl; length st]
              = true).
  { unfold users_frame in H. destruct (same_length _ _); [reflexivity | discriminate]. }
  apply same_length_true in E.
  repeat match goal with
         | F : Forall _ (_ :: _) |- _ =>
             apply Forall_cons_iff in F; destruct F as [? F]
         end.
  destruct (users_frame_ok (length ids) ids ag ge co su pl st)
    as (users' & Ef & _ & Hid & _); try assumption; [reflexivity|].
  rewrite Ef in H. now injection H as <-.
Qed.

Lemma tracks_frame_ids (ids : list Z) (ge : list string) (po : list Z)
    (ac da en : list float) (te du : list Z) (tracks : list Track.t) :
  tracks_frame ids ge po ac da en te du = Ok tracks ->
  map Track.track_id tracks = ids.
Proof.
  intros H.
  assert (E : same_length (length ids)
                [length ge; length po; length ac; length da; length en;
                 length te; length du] = true).
  { unfold tracks_frame in H. destruct (same_length _ _); [reflexivity | discriminate]. }
  apply same_length_true in E.
  repeat match goal with
         | F : Forall _ (_ :: _) |- _ =>
             apply Forall_cons_iff in F; destruct F as [? F]
         end.
  destruct (tracks_frame_cells (length ids) ids ge po ac da en te du)
    as (tracks' & Ef & _ & Hid & _); try assumption; [reflexivity|].
  rewrite Ef in H. now injection H as <-.
Qed.

(** The users of a Sessions table that was built are values of the column
    it was given. *)
Lemma sessions_frame_users (ids us : list Z) (td dt lo : list string) (sl : list Z)
    (sessions : list Session.t) :
  sessions_frame ids us td dt lo sl = Ok sessions ->
  Forall (fun s => In (Session.user_id s) us) sessions.
Proof.
  intros H.
  assert (E : same_length (length ids)
                [length us; length td; length dt; length lo; length sl] = true).
  { unfold sessions_frame in H. destruct (same_length _ _); [reflexivity | discriminate]. }
  apply same_length_true in E.
  repeat match goal with
         | F : Forall _ (_ :: _) |- _ =>
             apply Forall_cons_iff in F; destruct F as [? F]
         end.
  destruct (sessions_frame_cells (length ids) ids us td dt lo sl)
    as (sessions' & Ef & _ & _ & Hin); try assumption; [reflexivity|].
  rewrite Ef in H. injection H as <-.
  eapply Forall_impl; [|exact Hin]. now intros s [Hu _].
Qed.

(** Whatever the size, the integers a call of [integers] returns lie in
    [low, high). *)
Lemma integers_in_range (lo hi size : Z) (g g' : rng_state) (xs : list Z) :
  integers lo hi size g = Ok (xs, g') -> Forall (fun v => lo <= v < hi) xs.
Proof.
  unfold integers.
  destruct (size =? 0); [intros [= <- _]; constructor|].
  destruct (Z.leb_spec hi lo) as [Hle|Hlt]; [discriminate|].
  destruct (size <? 0); [discriminate|].
  intros H. injection H as H.
  apply Forall_forall. intros v Hv.
  apply (integers_range RNG laws lo hi (Z.to_nat size) g v Hlt).
  now rewrite H.
Qed.

(** The Users table of a run, when there is one, has the ids 1, ..., n. *)
Lemma generate_users_ids (n : Z) (g g' : rng_state) (users : list User.t) :
  generate_users n g = Ok (users, g') ->
  map User.user_id users = map Z.of_nat (seq 1 (Z.to_nat n)).
Proof.
  unfold generate_users, bind.
  destruct (choice AGE_GROUPS n AGE_WEIGHTS g) as [[ag g1]|msg]; [|discriminate].
  destruct (choice GENDERS n GENDER_WEIGHTS g1) as [[ge g2]|msg]; [|discriminate].
  destruct (choice COUNTRIES n COUNTRY_WEIGHTS g2) as [[co g3]|msg]; [|discriminate].
  destruct (choice SUB_TYPES n SUB_WEIGHTS g3) as [[su g4]|msg]; [|discriminate].
  destruct (choice PLATFORMS n PLATFORM_WEIGHTS g4) as [[pl g5]|msg]; [|discriminate].
  destruct (choice SKIP_TENDENCY n SKIP_WEIGHTS g5) as [[st g6]|msg]; [|discriminate].
  unfold lift.
  destruct (users_frame (arange 1 (n + 1)) ag ge co su pl st) as [us|msg] eqn:Ef;
    [|discriminate].
  intros [= <- _]. rewrite <- arange_from_one. now apply users_frame_ids in Ef.
Qed.

(** The Tracks table of a run, when there is one, has the ids 1, ..., n. *)
Lemma generate_tracks_ids (n : Z) (g g' : rng_state) (tracks : list Track.t) :
  generate_tracks n g = Ok (tracks, g') ->
  map Track.track_id tracks = map Z.of_nat (seq 1 (Z.to_nat n)).
Proof.
  unfold generate_tracks, bind.
  destruct (choice GENRES n GENRE_WEIGHTS g) as [[ge g1]|msg]; [|discriminate].
  destruct (integers 0 101 n g1) as [[po g2]|msg]; [|discriminate].
  destruct (random n g2) as [[ac g3]|msg]; [|discriminate].
  destruct (random n g3) as [[da g4]|msg]; [|discriminate].
  destruct (random n g4) as [[en g5]|msg]; [|discriminate].
  destruct (integers 60 181 n g5) as [[te g6]|msg]; [|discriminate].
  destruct (integers 120 360 n g6) as [[du g7]|msg]; [|discriminate].
  unfold lift.
  destruct (tracks_frame (arange 1 (n + 1)) ge po ac da en te du) as [ts|msg] eqn:Ef;
    [|discriminate].
  intros [= <- _]. rewrite <- arange_from_one. now apply tracks_frame_ids in Ef.
Qed.

(** Every session of the Sessions table of a run belongs to one of the
    [N_USERS] users. *)
Lemma generate_sessions_users (d : Dims) (n : Z) (g g' : rng_state)
    (sessions : list Session.t) :
  generate_sessions d n g = Ok (sessions, g') ->
  Forall (fun s => 1 <= Session.user_id s <= N_USERS d) sessions.
Proof.
  unfold generate_sessions, bind.
  destruct (integers 1 (N_USERS d + 1) n g) as [[us g1]|msg] eqn:E1; [|discriminate].
  destruct (choice TIME_OF_DAY n TOD_WEIGHTS g1) as [[td g2]|msg]; [|discriminate].
  destruct (choice DAY_TYPE n DAY_WEIGHTS g2) as [[dt g3]|msg]; [|discriminate].
  destruct (choice LOCATIONS n LOC_WEIGHTS g3) as [[lo g4]|msg]; [|discriminate].
  destruct (integers 5 40 n g4) as [[sl g5]|msg]; [|discriminate].
  unfold lift.
  destruct (sessions_frame (arange 1 (n + 1)) us td dt lo sl) as [ss|msg] eqn:Ef;
    [|discriminate].
  intros [= <- _]. apply sessions_frame_users in Ef. apply integers_in_range in E1.
  rewrite Forall_forall in *. intros s Hs.
  specialize (E1 _ (Ef s Hs)). cbn in E1. lia.
Qed.

(** The table [assign_tracks] returns holds the events it was given, in
    order, each with the id of one of the [N_TRACKS] tracks. *)
Lemma assign_tracks_ids (d : Dims) (events : list Event.t) (tracks : list Track.t)
    (g g' : rng_state) (tracked : list TrackedEvent) :
  assign_tracks d events tracks g = Ok (tracked, g') ->
  map fst tracked = events /\
  Forall (fun e => 1 <= snd e <= N_TRACKS d) tracked.
Proof.
  unfold assign_tracks, bind.
  destruct (integers 1 (N_TRACKS d + 1) (Z.of_nat (length events)) g)
    as [[ids g1]|msg] eqn:E; [|discriminate].
  unfold lift, set_track_id.
  destruct (Nat.eqb_spec (length ids) (length events)) as [Hl|Hl]; [|discriminate].
  intros [= <- _]. apply integers_in_range in E. split.
  - apply map_fst_combine. now symmetry.
  - apply Forall_forall. intros [ev tid] Hin. apply in_combine_r in Hin.
    rewrite Forall_forall in E. specialize (E _ Hin). cbn in *. lia.
Qed.

(** An expanded event has the user of a session of the table. *)
Lemma expanded_event_user (sessions : list Session.t) (e : Event.t) :
  In e (expand_sessions_to_events sessions) ->
  exists s, In s sessions /\ Event.user_id e = Session.user_id s.
Proof.
  rewrite expand_flat_map. intros Hin. apply in_flat_map in Hin.
  destruct Hin as [s [Hs He]]. apply in_session_events in He.
  destruct He as [pos [_ ->]]. exists s. split; [assumption | reflexivity].
Qed.

(** With a count that is not negative, [generate_users] returns a table. *)
Lemma generate_users_ok (n : Z) (g : rng_state) :
  0 <= n -> exists users g', generate_users n g = Ok (users, g').
Proof.
  intros H0. unfold generate_users.
  destruct (choice_ok laws AGE_GROUPS AGE_WEIGHTS n g H0 ltac:(discriminate))
    as (ag & g1 & E1 & Lag & _).
  destruct (choice_ok laws GENDERS GENDER_WEIGHTS n g1 H0 ltac:(discriminate))
    as (ge & g2 & E2 & Lge & _).
  destruct (choice_ok laws COUNTRIES COUNTRY_WEIGHTS n g2 H0 ltac:(discriminate))
    as (co & g3 & E3 & Lco & _).
  destruct (choice_ok laws SUB_TYPES SUB_WEIGHTS n g3 H0 ltac:(discriminate))
    as (su & g4 & E4 & Lsu & _).
  destruct (choice_ok laws PLATFORMS PLATFORM_WEIGHTS n g4 H0 ltac:(discriminate))
    as (pl & g5 & E5 & Lpl & _).
  destruct (choice_ok laws SKIP_TENDENCY SKIP_WEIGHTS n g5 H0 ltac:(discriminate))
    as (st & g6 & E6 & Lst & _).
  rewrite (bind_ok _ _ _ _ _ E1), (bind_ok _ _ _ _ _ E2), (bind_ok _ _ _ _ _ E3),
          (bind_ok _ _ _ _ _ E4), (bind_ok _ _ _ _ _ E5), (bind_ok _ _ _ _ _ E6).
  destruct (users_frame_ok (Z.to_nat n) (arange 1 (n + 1)) ag ge co su pl st
              (arange_from_one_length n) Lag Lge Lco Lsu Lpl Lst) as (users & Ef & _).
  exists users, g6. unfold lift. now rewrite Ef.
Qed.

(** A Sessions table of no session is generated whatever the number of
    users, and is empty. *)
Lemma generate_sessions_empty (d : Dims) (g : rng_state) :
  exists g', generate_sessions d 0 g = Ok ([], g').
Proof.
  unfold generate_sessions.
  assert (E1 : integers 1 (N_USERS d + 1) 0 g = Ok ([], g)) by reflexivity.
  destruct (choice_ok laws TIME_OF_DAY TOD_WEIGHTS 0 g ltac:(lia) ltac:(discriminate))
    as (td & g2 & E2 & Ltd & _).
  destruct (choice_ok laws DAY_TYPE DAY_WEIGHTS 0 g2 ltac:(lia) ltac:(discriminate))
    as (dt & g3 & E3 & Ldt & _).
  destruct (choice_ok laws LOCATIONS LOC_WEIGHTS 0 g3 ltac:(lia) ltac:(discriminate))
    as (lo & g4 & E4 & Llo & _).
  assert (E5 : integers 5 40 0 g4 = Ok ([], g4)) by reflexivity.
  rewrite (bind_ok _ _ _ _ _ E1), (bind_ok _ _ _ _ _ E2), (bind_ok _ _ _ _ _ E3),
          (bind_ok _ _ _ _ _ E4), (bind_ok _ _ _ _ _ E5).
  apply length_zero_iff_nil in Ltd, Ldt, Llo. subst td dt lo.
  exists g4. reflexivity.
Qed.

End StageFacts.

(** ** The joins of a run *)

Section JoinIntegrity.
Import Run Generate ExpandSpec JoinSpec ExportSpec.
Context {RNG : Generator} (laws : GeneratorLaws RNG).


End JoinIntegrity.


(** ** Runs of the script, with its import *)

Section ScriptFacts.
Import Run Generate ExpandSpec TableSpec JoinSpec ExportSpec.
Context {RNG : Generator} (laws : GeneratorLaws RNG) {DM : DashboardModule}.


(** X8. With sessions to generate but no user, or no track, the run stops
    with numpy's [ValueError] for an empty range of ids, [low >= high]: the
    Users and Tracks tables are still made, empty ones included; without
    users the error is raised in [generate_sessions], and with users but
    without tracks in [assign_tracks], on the events of the sessions.  The
    generator is assumed to behave as numpy documents. *)
Theorem pipeline_without_users_or_tracks_raises_value_error (d : Dims)
    (g : rng_state) :
  0 <= N_USERS d -> 0 <= N_TRACKS d -> 0 < N_SESSIONS d ->
  N_USERS d = 0 \/ N_TRACKS d = 0 ->
  pipeline d g = Error "low >= high" /\
  exists users tracks g1 g2,
    generate_users (N_USERS d) g = Ok (users, g1) /\
    generate_tracks (N_TRACKS d) g1 = Ok (tracks, g2) /\
    (N_USERS d = 0 ->
       generate_sessions d (N_SESSIONS d) g2 = Error "low >= high") /\
    (0 < N_USERS d ->
       exists sessions g3,
         generate_sessions d (N_SESSIONS d) g2 = Ok (sessions, g3) /\
         expand_sessions_to_events sessions <> [] /\
         assign_tracks d (expand_sessions_to_events sessions) tracks g3
         = Error "low >= high").
Proof.
  intros Hu Ht Hs Hzero.
  destruct (generate_users_ok laws (N_USERS d) g Hu) as (users & g1 & E1).
  destruct (generate_tracks_ok laws (N_TRACKS d) g1 Ht) as (tracks & g2 & E2).
  assert (Hnos : N_USERS d = 0 ->
                 generate_sessions d (N_SESSIONS d) g2 = Error "low >= high").
  { intros H0. unfold generate_sessions, bind, integers. rewrite H0.
    destruct (Z.eqb_spec (N_SESSIONS d) 0) as [Hz|_]; [lia | reflexivity]. }
  assert (Hnot : 0 < N_USERS d ->
                 exists sessions g3,
                   generate_sessions d (N_SESSIONS d) g2 = Ok (sessions, g3) /\
                   expand_sessions_to_events sessions <> [] /\
                   assign_tracks d (expand_sessions_to_events sessions) tracks g3
                   = Error "low >= high").
  { intros Hpos. assert (Ht0 : N_TRACKS d = 0) by lia.
    destruct (generate_sessions_ok laws d (N_SESSIONS d) g2 Hpos Hs)
      as (sessions & g3 & E3 & Ls & Rs).
    assert (Hne : expand_sessions_to_events sessions <> []).
    { apply expand_nonempty; [|exact Rs]. intros ->. cbn in Ls. lia. }
    exists sessions, g3. split; [exact E3|]. split; [exact Hne|].
    unfold assign_tracks, bind, integers. rewrite Ht0.
    destruct (Z.eqb_spec (Z.of_nat (length (expand_sessions_to_events sessions))) 0)
      as [Hz|_]; [|reflexivity].
    exfalso. apply Hne. apply length_zero_iff_nil. lia. }
  split.
  - unfold pipeline.
    rewrite (bind_ok _ _ _ _ _ E1), (bind_ok _ _ _ _ _ E2).
    destruct (Z.eq_dec (N_USERS d) 0) as [H0|Hn0].
    + unfold bind at 1. now rewrite (Hnos H0).
    + destruct (Hnot ltac:(lia)) as (sessions & g3 & E3 & _ & E4).
      rewrite (bind_ok _ _ _ _ _ E3). cbv zeta.
      unfold bind at 1. now rewrite E4.
  - exists users, tracks, g1, g2. repeat split; assumption.
Qed.

(** X9. With no session to generate, the run does not export an empty
    table: the Users and Tracks tables are made, whatever their sizes, the
    Sessions table is empty, no event is expanded and none is given a track,
    and the first merge raises [KeyError] on the [user_id] column the empty
    events frame does not have.  The generator is assumed to behave as numpy
    documents. *)
Theorem pipeline_without_sessions_raises_key_error (d : Dims) (g : rng_state) :
  0 <= N_USERS d -> 0 <= N_TRACKS d -> N_SESSIONS d = 0 ->
  exists users tracks g1 g2 g3,
    generate_users (N_USERS d) g = Ok (users, g1) /\
    generate_tracks (N_TRACKS d) g1 = Ok (tracks, g2) /\
    generate_sessions d (N_SESSIONS d) g2 = Ok ([], g3) /\
    assign_tracks d (expand_sessions_to_events []) tracks g3 = Ok ([], g3) /\
    pipeline d g = Error "KeyError: 'user_id'".
Proof.
  intros Hu Ht Hs.
  destruct (generate_users_ok laws (N_USERS d) g Hu) as (users & g1 & E1).
  destruct (generate_tracks_ok laws (N_TRACKS d) g1 Ht) as (tracks & g2 & E2).
  destruct (generate_sessions_empty laws d g2) as (g3 & E3). rewrite <- Hs in E3.
  assert (E4 : assign_tracks d (expand_sessions_to_events []) tracks g3 = Ok ([], g3))
    by reflexivity.
  exists users, tracks, g1, g2, g3.
  split; [exact E1|]. split; [exact E2|]. split; [exact E3|]. split; [exact E4|].
  unfold pipeline.
  rewrite (bind_ok _ _ _ _ _ E1), (bind_ok _ _ _ _ _ E2), (bind_ok _ _ _ _ _ E3).
  cbv zeta. now rewrite (bind_ok _ _ _ _ _ E4).
Qed.

End ScriptFacts.


Lemma pipeline_without_users_or_tracks_raises_value_error_witness :
  Generate.pipeline (RNG := Toy.counter) (Generate.mkDims 2 0 3) 0
  = Run.Error "low >= high" /\
  exists users tracks g1 g2,
    Generate.generate_users (RNG := Toy.counter) 2 0 = Run.Ok (users, g1) /\
    Generate.generate_tracks (RNG := Toy.counter) 0 g1 = Run.Ok (tracks, g2) /\
    (2 = 0 ->
       Generate.generate_sessions (RNG := Toy.counter) (Generate.mkDims 2 0 3) 3 g2
       = Run.Error "low >= high") /\
    (0 < 2 ->
       exists sessions g3,
         Generate.generate_sessions (RNG := Toy.counter) (Generate.mkDims 2 0 3) 3 g2
         = Run.Ok (sessions, g3) /\
         Generate.expand_sessions_to_events sessions <> [] /\
         Generate.assign_tracks (RNG := Toy.counter) (Generate.mkDims 2 0 3)
           (Generate.expand_sessions_to_events sessions) tracks g3
         = Run.Error "low >= high").
Proof.
  apply (pipeline_without_users_or_tracks_raises_value_error counter_laws
           (Generate.mkDims 2 0 3) 0); cbn; solve [lia | now right].
Defined.

Lemma pipeline_without_sessions_raises_key_error_witness :
  exists users tracks g1 g2 g3,
    Generate.generate_users (RNG := Toy.counter) 0 0 = Run.Ok (users, g1) /\
    Generate.generate_tracks (RNG := Toy.counter) 4 g1 = Run.Ok (tracks, g2) /\
    Generate.generate_sessions (RNG := Toy.counter) (Generate.mkDims 0 4 0) 0 g2
    = Run.Ok ([], g3) /\
    Generate.assign_tracks (RNG := Toy.counter) (Generate.mkDims 0 4 0)
      (Generate.expand_sessions_to_events []) tracks g3 = Run.Ok ([], g3) /\
    Generate.pipeline (RNG := Toy.counter) (Generate.mkDims 0 4 0) 0
    = Run.Error "KeyError: 'user_id'".
Proof.
  apply (pipeline_without_sessions_raises_key_error counter_laws
           (Generate.mkDims 0 4 0) 0); cbn; solve [lia | reflexivity].
Defined.

(** ** Sessions of the sequence dataset *)

Section GroupFacts.
Import Run SequenceDataset.

Lemma insert_key_perm {A : Type} (key : A -> Z) (a : A) (l : list A) :
  Permutation (insert_key key a l) (a :: l).
Proof.
  induction l as [|b l IH]; cbn [insert_key].
  - apply Permutation_refl.
  - destruct (key a <=? key b).
    + apply Permutation_refl.
    + eapply Permutation_trans; [apply perm_skip, IH | apply perm_swap].
Qed.

(** Sorting rearranges, and neither drops nor repeats a row. *)
Lemma sort_values_perm {A : Type} (key : A -> Z) (l : list A) :
  Permutation (sort_values key l) l.
Proof.
  unfold sort_values. induction l as [|a l IH]; cbn [fold_right].
  - apply Permutation_refl.
  - eapply Permutation_trans; [apply insert_key_perm | now apply perm_skip].
Qed.

Lemma insert_key_sorted {A : Type} (key : A -> Z) (a : A) (l : list A) :
  StronglySorted (fun u v => key u <= key v) l ->
  StronglySorted (fun u v => key u <= key v) (insert_key key a l).
Proof.
  induction 1 as [|b l Hs IH Hb]; cbn [insert_key].
  - constructor; constructor.
  - destruct (Z.leb_spec (key a) (key b)) as [Hlt|Hge].
    + constructor; [constructor; assumption|].
      constructor; [lia|].
      eapply Forall_impl; [|exact Hb]. cbn. intros c Hc. lia.
    + constructor; [exact IH|].
      apply Forall_forall. intros c Hc.
      apply (Permutation_in _ (insert_key_perm key a l)) in Hc.
      destruct Hc as [<-|Hc]; [lia|].
      rewrite Forall_forall in Hb. now apply Hb.
Qed.

(** Sorting leaves the keys in ascending order. *)
Lemma sort_values_sorted {A : Type} (key : A -> Z) (l : list A) :
  StronglySorted (fun u v => key u <= key v) (sort_values key l).
Proof.
  unfold sort_values. induction l as [|a l IH]; cbn [fold_right].
  - constructor.
  - now apply insert_key_sorted.
Qed.

Lemma sort_values_length {A : Type} (key : A -> Z) (l : list A) :
  length (sort_values key l) = length l.
Proof. apply Permutation_length, sort_values_perm. Qed.

(** Ascending keys without a repeat are strictly ascending. *)
Lemma sorted_nodup_strict (l : list Z) :
  StronglySorted (fun u v => u <= v) l -> NoDup l -> StronglySorted Z.lt l.
Proof.
  induction 1 as [|a l Hs IH Ha]; intros Hnd.
  - constructor.
  - inversion Hnd as [|? ? Hnotin Hnd']; subst.
    constructor; [now apply IH|].
    apply Forall_forall. intros b Hb.
    rewrite Forall_forall in Ha. specialize (Ha b Hb). cbn in Ha.
    assert (a <> b) by (intros ->; contradiction). lia.
Qed.

(** The keys of the groups: the session ids of the frame, each once, in
    strictly ascending order. *)
Lemma groupby_keys (df : list Obs) :
  StronglySorted Z.lt (map fst (groupby df)) /\
  forall k, In k (map fst (groupby df)) <-> In k (map session_id df).
Proof.
  unfold groupby. rewrite map_map. cbn [fst]. rewrite map_id.
  split.
  - apply sorted_nodup_strict.
    + apply (sort_values_sorted (fun k : Z => k)).
    + eapply Permutation_NoDup.
      * apply Permutation_sym, sort_values_perm.
      * apply NoDup_nodup.
  - intros k. split; intros Hk.
    + apply (Permutation_in _ (sort_values_perm (fun k : Z => k) _)) in Hk.
      now apply nodup_In in Hk.
    + apply (Permutation_in _ (Permutation_sym (sort_values_perm (fun k : Z => k) _))).
      now apply nodup_In.
Qed.

Lemma filter_disjoint_app {A : Type} (p q : A -> bool) (l : list A) :
  (forall a, p a = true -> q a = false) ->
  Permutation (filter p l ++ filter q l) (filter (fun a => p a || q a) l).
Proof.
  intros Hpq. induction l as [|a l IH]; cbn [filter app].
  - apply Permutation_refl.
  - destruct (p a) eqn:Ep.
    + rewrite (Hpq a Ep). cbn [orb app]. now apply perm_skip.
    + cbn [orb]. destruct (q a).
      * eapply Permutation_trans;
          [apply Permutation_sym, Permutation_middle | now apply perm_skip].
      * exact IH.
Qed.

(** The rows of distinct keys, group after group, are the rows whose key is
    one of them, rearranged. *)
Lemma groups_of_keys (df : list Obs) (keys : list Z) :
  NoDup keys ->
  Permutation
    (flat_map (fun k => filter (fun o => session_id o =? k) df) keys)
    (filter (fun o => existsb (Z.eqb (session_id o)) keys) df).
Proof.
  induction 1 as [|k keys Hnotin Hnd IH]; cbn [flat_map existsb].
  - induction df as [|o df IHdf]; cbn [filter]; [constructor | exact IHdf].
  - eapply Permutation_trans; [apply Permutation_app_head, IH|].
    apply (filter_disjoint_app (fun o => session_id o =? k)
             (fun o => existsb (Z.eqb (session_id o)) keys)).
    intros o Ho. apply Z.eqb_eq in Ho.
    destruct (existsb (Z.eqb (session_id o)) keys) eqn:E; [|reflexivity].
    apply existsb_exists in E. destruct E as [k' [Hk' Heq]].
    apply Z.eqb_eq in Heq. exfalso. apply Hnotin. congruence.
Qed.

Lemma filter_all {A : Type} (p : A -> bool) (l : list A) :
  (forall a, In a l -> p a = true) -> filter p l = l.
Proof.
  induction l as [|a l IH]; cbn [filter]; intros Hall.
  - reflexivity.
  - rewrite (Hall a) by now left.
    f_equal. apply IH. intros b Hb. apply Hall. now right.
Qed.

(** Grouping loses no row and repeats none. *)
Lemma groupby_perm (df : list Obs) :
  Permutation (flat_map snd (groupby df)) df.
Proof.
  unfold groupby. rewrite flat_map_concat_map, map_map. cbn [snd].
  rewrite <- flat_map_concat_map.
  set (keys := sort_values (fun k : Z => k) (nodup Z.eq_dec (map session_id df))).
  assert (Hnd : NoDup keys).
  { eapply Permutation_NoDup;
      [apply Permutation_sym, sort_values_perm | apply NoDup_nodup]. }
  eapply Permutation_trans; [apply (groups_of_keys df keys Hnd)|].
  assert (Hall : forall o, In o df -> existsb (Z.eqb (session_id o)) keys = true).
  { intros o Ho. apply existsb_exists. exists (session_id o).
    split; [|apply Z.eqb_refl].
    apply (Permutation_in _ (Permutation_sym (sort_values_perm (fun k : Z => k) _))).
    apply nodup_In. now apply in_map. }
  rewrite (filter_all _ df Hall). apply Permutation_refl.
Qed.

End GroupFacts.

Section DatasetFacts.
Import Run SequenceDataset.

Lemma combine_columns {A B C : Type} (f : A -> B) (h : A -> C) (l : list A) :
  combine (map f l) (map h l) = map (fun a => (f a, h a)) l.
Proof. induction l as [|a l IH]; cbn; [reflexivity | now rewrite IH]. Qed.

Lemma flat_map_perm_ext {A B : Type} (f h : A -> list B) (l : list A) :
  (forall a, Permutation (f a) (h a)) ->
  Permutation (flat_map f l) (flat_map h l).
Proof.
  intros Hfh. induction l as [|a l IH]; cbn [flat_map].
  - constructor.
  - now apply Permutation_app.
Qed.

Lemma map_of_flat_map {A B C : Type} (f : B -> C) (h : A -> list B) (l : list A) :
  map f (flat_map h l) = flat_map (fun a => map f (h a)) l.
Proof.
  induction l as [|a l IH]; cbn [flat_map map].
  - reflexivity.
  - now rewrite map_app, IH.
Qed.

(** X10. The dataset keeps every event of the frame exactly once: the
    (features, label) pairs of all its sessions together are the rows of the
    frame, rearranged.  Grouping and sorting drop nothing and repeat
    nothing. *)
Theorem dataset_keeps_every_event (df : list Obs) (nf : nat) (ml : Z) :
  Permutation
    (flat_map (fun s : Seq => combine (fst s) (snd s)) (sessions (init df nf ml)))
    (map (fun o => (x o, y o)) df).
Proof.
  unfold init. cbn [sessions].
  rewrite flat_map_concat_map, map_map. cbn [fst snd].
  rewrite <- flat_map_concat_map.
  eapply Permutation_trans.
  - apply (flat_map_perm_ext _
             (fun kg : Z * list Obs => map (fun o => (x o, y o)) (snd kg))).
    intros kg. rewrite combine_columns.
    apply Permutation_map, sort_values_perm.
  - rewrite <- (map_of_flat_map (fun o => (x o, y o)) snd).
    apply Permutation_map, groupby_perm.
Qed.

(** X11. Every session of the dataset is one session id of the frame: its
    sequence holds exactly the rows of that id, it is never empty, and it
    lists them by ascending position.  The sessions come in strictly
    ascending order of their ids. *)
Theorem sessions_are_sorted_groups (df : list Obs) (nf : nat) (ml : Z) :
  StronglySorted Z.lt (map fst (groupby df)) /\
  length (sessions (init df nf ml)) = length (groupby df) /\
  forall idx s,
    nth_error (sessions (init df nf ml)) idx = Some s ->
    exists k g,
      nth_error (map fst (groupby df)) idx = Some k /\
      In k (map session_id df) /\
      Permutation g (filter (fun o => session_id o =? k) df) /\
      g <> [] /\
      StronglySorted (fun u v => position u <= position v) g /\
      s = (map x g, map y g).
Proof.
  split; [apply groupby_keys|]. split; [unfold init; cbn; apply length_map|].
  intros idx s. unfold init. cbn [sessions].
  rewrite !nth_error_map.
  destruct (nth_error (groupby df) idx) as [[k grp]|] eqn:E; [|discriminate].
  cbn [option_map fst snd]. intros [= <-].
  assert (Hin : In (k, grp) (groupby df)) by (eapply nth_error_In; eassumption).
  assert (Hk : In k (map session_id df)).
  { apply (proj2 (groupby_keys df)). apply in_map_iff. now exists (k, grp). }
  assert (Hgrp : grp = filter (fun o => session_id o =? k) df).
  { unfold groupby in Hin. apply in_map_iff in Hin.
    destruct Hin as [k' [[= -> <-] _]]. reflexivity. }
  exists k, (sort_values position grp). repeat split.
  - exact Hk.
  - rewrite <- Hgrp. apply sort_values_perm.
  - intros Hnil.
    pose proof (sort_values_length position grp) as Hl. rewrite Hnil in Hl.
    cbn in Hl. symmetry in Hl. apply length_zero_iff_nil in Hl.
    apply in_map_iff in Hk. destruct Hk as [o [Ho Hin']].
    assert (Hf : In o grp).
    { rewrite Hgrp. apply filter_In. split; [assumption | now apply Z.eqb_eq]. }
    rewrite Hl in Hf. contradiction.
  - apply sort_values_sorted.
Qed.

(** X12. On a frame with [n_features] feature columns, the dataset has one
    item per distinct session id of the frame, and [__getitem__] returns an
    item exactly for the indices below that number; any other index raises. *)
Theorem dataset_items_are_distinct_sessions (df : list Obs) (nf : nat) (ml : Z)
    (idx : nat) :
  SequenceSpec.feature_width nf df ->
  len (init df nf ml) = length (nodup Z.eq_dec (map session_id df)) /\
  ((exists item, getitem (init df nf ml) idx = Ok item)
   <-> (idx < len (init df nf ml))%nat).
Proof.
  intros _. split.
  - unfold len, init, groupby. cbn [sessions].
    now rewrite !length_map, sort_values_length.
  - unfold getitem, len. split.
    + intros [item Hitem]. apply nth_error_Some.
      destruct (nth_error (sessions (init df nf ml)) idx); [discriminate|].
      discriminate.
    + intros Hlt. apply nth_error_Some in Hlt.
      destruct (nth_error (sessions (init df nf ml)) idx) as [[X y0]|];
        [|contradiction].
      destruct (0 <? max_len (init df nf ml) - Z.of_nat (length X)); eauto.
Qed.

(** Keys in ascending order without a repeat are in strictly ascending
    order. *)
Lemma sorted_by_distinct_keys {A : Type} (key : A -> Z) (l : list A) :
  StronglySorted (fun u v => key u <= key v) l ->
  NoDup (map key l) ->
  StronglySorted (fun u v => key u < key v) l.
Proof.
  induction 1 as [|a l Hs IH Ha]; cbn [map]; intros Hnd.
  - constructor.
  - inversion Hnd as [|? ? Hnotin Hnd']; subst.
    constructor; [now apply IH|].
    apply Forall_forall. intros b Hb.
    rewrite Forall_forall in Ha. specialize (Ha b Hb). cbn in Ha.
    assert (key a <> key b).
    { intros Heq. apply Hnotin. rewrite Heq. now apply in_map. }
    lia.
Qed.

(** X13. On a frame with [n_features] feature columns whose sessions have
    no position twice, and with a non-negative [max_len], an item is its
    session in strictly ascending position order, with the features rounded
    to [float32], cut or padded to exactly [max_len] steps.  A session
    shorter than [max_len] is followed by rows of zeros, and its labels come
    out as [float32]; a session of [max_len] events or more keeps its first
    [max_len] events, and its labels stay [long]. *)
Theorem getitem_pads_or_truncates (df : list Obs) (nf : nat) (ml : Z) (idx : nat)
    (k : Z) (grp : list Obs) :
  SequenceSpec.feature_width nf df ->
  0 <= ml ->
  nth_error (groupby df) idx = Some (k, grp) ->
  NoDup (map position grp) ->
  exists g,
    Permutation g grp /\
    StronglySorted (fun u v => position u < position v) g /\
    getitem (init df nf ml) idx
    = Ok (if Z.of_nat (length grp) <? ml
          then (map (fun o => map to_float32 (x o)) g
                  ++ repeat (repeat PrimFloat.zero nf) (Z.to_nat ml - length grp),
                Float32 (map (fun o => long_to_float32 (y o)) g
                           ++ repeat PrimFloat.zero (Z.to_nat ml - length grp)))
          else (map (fun o => map to_float32 (x o)) (firstn (Z.to_nat ml) g),
                Long (map y (firstn (Z.to_nat ml) g))))%list.
Proof.
  intros _ Hml E Hnd. exists (sort_values position grp).
  split; [apply sort_values_perm|]. split.
  { apply sorted_by_distinct_keys; [apply sort_values_sorted|].
    eapply Permutation_NoDup; [|exact Hnd].
    apply Permutation_map, Permutation_sym, sort_values_perm. }
  unfold getitem, init. cbn [sessions max_len n_features].
  rewrite nth_error_map, E. cbn [option_map snd].
  rewrite length_map, sort_values_length. unfold float32_tensor.
  destruct (Z.ltb_spec 0 (ml - Z.of_nat (length grp))) as [Hpad|Hcut];
    destruct (Z.ltb_spec (Z.of_nat (length grp)) ml) as [Hlt|Hge]; try lia.
  - rewrite !map_map.
    replace (Z.to_nat (ml - Z.of_nat (length grp)))
      with (Z.to_nat ml - length grp)%nat by lia.
    reflexivity.
  - unfold slice_to. destruct (Z.leb_spec 0 ml) as [_|Hneg]; [|lia].
    now rewrite <- !firstn_map, map_map.
Qed.

End DatasetFacts.

Lemma getitem_pads_or_truncates_witness :
  exists g,
    Permutation g shuffled_session /\
    StronglySorted
      (fun u v => SequenceDataset.position u < SequenceDataset.position v) g /\
    SequenceDataset.getitem (SequenceDataset.init shuffled_session 1 5) 0
    = Run.Ok
        (if Z.of_nat (length shuffled_session) <? 5
         then (map (fun o => map SequenceDataset.to_float32 (SequenceDataset.x o)) g
                 ++ repeat (repeat PrimFloat.zero 1)
                      (Z.to_nat 5 - length shuffled_session),
               SequenceDataset.Float32
                 (map (fun o => SequenceDataset.long_to_float32 (SequenceDataset.y o)) g
                    ++ repeat PrimFloat.zero (Z.to_nat 5 - length shuffled_session)))
         else (map (fun o => map SequenceDataset.to_float32 (SequenceDataset.x o))
                 (firstn (Z.to_nat 5) g),
               SequenceDataset.Long
                 (map SequenceDataset.y (firstn (Z.to_nat 5) g))))%list.
Proof.
  apply (getitem_pads_or_truncates shuffled_session 1 5 0 7 shuffled_session).
  - repeat constructor.
  - lia.
  - reflexivity.
  - repeat constructor; cbn; intuition discriminate.
Defined.

(** The three events of [shuffled_session] as an item of five steps, and as
    an item of two. *)
Example getitem_sorts_rounds_and_pads :
  SequenceDataset.getitem (SequenceDataset.init shuffled_session 1 5) 0
  = Run.Ok ([[0.69999998807907104%float]; [16777216%float];
             [0.10000000149011612%float]; [0%float]; [0%float]],
            SequenceDataset.Float32 [0%float; 1%float; 1%float; 0%float; 0%float]) /\
  SequenceDataset.getitem (SequenceDataset.init shuffled_session 1 2) 0
  = Run.Ok ([[0.69999998807907104%float]; [16777216%float]],
            SequenceDataset.Long [0; 1]).
Proof. split; vm_compute; reflexivity. Qed.

(** ** Batches of the sequence dataset *)

Section BatchFacts.
Import Run SequenceDataset.

(** Both halves of an item of a dataset with a non-negative [max_len] have
    exactly [max_len] steps. *)
Lemma getitem_lengths_both (df : list Obs) (nf : nat) (ml : Z) (idx : nat)
    (item : Item) :
  0 <= ml ->
  getitem (init df nf ml) idx = Ok item ->
  length (fst item) = Z.to_nat ml /\ labels_len (snd item) = Z.to_nat ml.
Proof.
  intros Hml. unfold getitem, init. cbn [sessions max_len n_features].
  rewrite nth_error_map.
  destruct (nth_error (groupby df) idx) as [kg|]; cbn [option_map]; [|discriminate].
  rewrite length_map. unfold float32_tensor.
  set (g := sort_values position (snd kg)).
  destruct (Z.ltb_spec 0 (ml - Z.of_nat (length g))) as [Hpad|Hcut];
    intros [= <-]; cbn [fst snd labels_len].
  - rewrite !length_app, !repeat_length, !length_map. lia.
  - rewrite length_map, !slice_to_length; rewrite ?length_map; lia.
Qed.

Lemma getitem_below_len (ds : SessionDataset) (idx : nat) :
  (idx < len ds)%nat -> exists item, getitem ds idx = Ok item.
Proof.
  intros Hlt. unfold getitem. apply nth_error_Some in Hlt.
  destruct (nth_error (sessions ds) idx) as [[X y0]|]; [|contradiction].
  destruct (0 <? max_len ds - Z.of_nat (length X)); eauto.
Qed.

Lemma getitem_ok_below_len (ds : SessionDataset) (idx : nat) (item : Item) :
  getitem ds idx = Ok item -> (idx < len ds)%nat.
Proof.
  unfold getitem, len. intros H. apply nth_error_Some.
  destruct (nth_error (sessions ds) idx); discriminate.
Qed.

(** The items of indices below [len] can all be fetched, one per index. *)
Lemma fetch_ok (ds : SessionDataset) (idxs : list nat) :
  Forall (fun i => (i < len ds)%nat) idxs ->
  exists batch, fetch ds idxs = Ok batch /\ length batch = length idxs.
Proof.
  induction 1 as [|i idxs Hi _ IH]; cbn [fetch].
  - exists []. split; reflexivity.
  - destruct (getitem_below_len ds i Hi) as [item ->].
    destruct IH as [batch [-> Hl]].
    exists (item :: batch). split; [reflexivity | cbn; now rewrite Hl].
Qed.

Lemma fetch_valid (ds : SessionDataset) (idxs : list nat) (batch : list Item) :
  fetch ds idxs = Ok batch ->
  Forall (fun i => (i < len ds)%nat) idxs /\ length batch = length idxs.
Proof.
  revert batch. induction idxs as [|i idxs IH]; intros batch; cbn [fetch].
  - intros [= <-]. split; [constructor | reflexivity].
  - destruct (getitem ds i) as [item|msg] eqn:Ei; [|discriminate].
    destruct (fetch ds idxs) as [items|msg]; [|discriminate].
    intros [= <-]. destruct (IH items eq_refl) as [Hall Hl]. split.
    + constructor; [eapply getitem_ok_below_len; eassumption | exact Hall].
    + cbn. now rewrite Hl.
Qed.

(** Tensors of one size, at least one of them, pass the check of
    [torch.stack]. *)
Lemma stackable_ok (n : nat) (sizes : list nat) :
  sizes <> [] -> Forall (fun m => m = n) sizes -> stackable sizes = Ok tt.
Proof.
  intros Hne Hall. unfold stackable.
  destruct sizes as [|m sizes']; [contradiction|].
  assert (Hsame : forallb (fun n' => Nat.eqb n' m) (m :: sizes') = true).
  { apply forallb_forall. intros m' Hm'. rewrite Forall_forall in Hall.
    rewrite (Hall m' Hm'), (Hall m) by now left. apply Nat.eqb_refl. }
  now rewrite Hsame.
Qed.

Lemma stack_ok {A : Type} (n : nat) (ts : list (list A)) :
  ts <> [] -> Forall (fun t => length t = n) ts -> stack ts = Ok ts.
Proof.
  intros Hne Hall. unfold stack.
  rewrite (stackable_ok n).
  - reflexivity.
  - destruct ts; [contradiction | discriminate].
  - rewrite Forall_map. exact Hall.
Qed.

(** Label tensors of one size stack, whatever their dtypes, to as many
    rows. *)
Lemma stack_labels_ok (n : nat) (ts : list labels) :
  ts <> [] -> Forall (fun t => labels_len t = n) ts ->
  exists ys, stack_labels ts = Ok ys /\ length ys = length ts.
Proof.
  intros Hne Hall. unfold stack_labels.
  rewrite (stackable_ok n).
  - destruct (forallb is_long ts); eexists; split; try reflexivity.
    apply length_map.
  - destruct ts; [contradiction | discriminate].
  - rewrite Forall_map. exact Hall.
Qed.

(** X14. On a frame with [n_features] feature columns and with a
    non-negative [max_len], a batch can be loaded exactly when it names at
    least one index and every index is below the number of sessions: the
    padding makes the items stack, whatever the lengths of the sessions, and
    the batch has one entry per index.  An empty batch, or an index out of
    range, raises. *)
Theorem load_batch_succeeds_iff (df : list Obs) (nf : nat) (ml : Z)
    (idxs : list nat) :
  SequenceSpec.feature_width nf df ->
  0 <= ml ->
  ((exists xs ys lengths,
      load_batch (init df nf ml) idxs = Ok (xs, ys, lengths) /\
      length xs = length idxs /\ length ys = length idxs /\
      length lengths = length idxs)
   <-> (idxs <> [] /\ Forall (fun i => (i < len (init df nf ml))%nat) idxs)).
Proof.
  intros _ Hml. unfold load_batch. split.
  - intros (xs & ys & lengths & Hload & _).
    destruct (fetch (init df nf ml) idxs) as [batch|msg] eqn:Ef; [|discriminate].
    destruct (fetch_valid _ _ _ Ef) as [Hall Hl]. split; [|exact Hall].
    intros ->. cbn in Ef. injection Ef as <-. discriminate.
  - intros [Hne Hall].
    destruct (fetch_ok _ idxs Hall) as [batch [Ef Hl]]. rewrite Ef.
    assert (Hb : batch <> []).
    { intros ->. destruct idxs; [contradiction | discriminate]. }
    assert (Hlen : Forall (fun item : Item =>
                     length (fst item) = Z.to_nat ml
                     /\ labels_len (snd item) = Z.to_nat ml) batch).
    { clear Hne Hl Hb Hall. revert batch Ef.
      induction idxs as [|i idxs IH]; intros batch; cbn [fetch].
      - intros [= <-]. constructor.
      - destruct (getitem (init df nf ml) i) as [item|msg] eqn:Ei; [|discriminate].
        destruct (fetch (init df nf ml) idxs) as [items|msg]; [|discriminate].
        intros [= <-]. constructor.
        + eapply getitem_lengths_both; eassumption.
        + now apply IH. }
    unfold collate_fn.
    rewrite (stack_ok (Z.to_nat ml) (map fst batch)).
    2: { destruct batch; [contradiction | discriminate]. }
    2: { apply Forall_map. eapply Forall_impl; [|exact Hlen]. now intros item [H _]. }
    destruct (stack_labels_ok (Z.to_nat ml) (map snd batch)) as (ys & -> & Lys).
    { destruct batch; [contradiction | discriminate]. }
    { apply Forall_map. eapply Forall_impl; [|exact Hlen]. now intros item [_ H]. }
    eexists _, _, _. split; [reflexivity|].
    rewrite Lys, !length_map. repeat split; exact Hl.
Qed.

End BatchFacts.

Lemma load_batch_succeeds_iff_witness :
  (exists xs ys lengths,
      SequenceDataset.load_batch (SequenceDataset.init short_session 1 50) [0%nat]
      = Run.Ok (xs, ys, lengths) /\
      length xs = length [0%nat] /\ length ys = length [0%nat] /\
      length lengths = length [0%nat])
  <-> ([0%nat] <> [] /\
       Forall (fun i => (i < SequenceDataset.len
                               (SequenceDataset.init short_session 1 50))%nat)
         [0%nat]).
Proof.
  apply (load_batch_succeeds_iff short_session 1 50 [0%nat]);
    [repeat constructor | lia].
Defined.

(** ** The dashboard filters *)

Section DashboardFacts.
Import Dashboard DashboardSpec.

Lemma select_filter (col : DRow -> string) (chosen : list string) (df : list DRow) :
  select col chosen df = filter (fun r => allows chosen (col r)) df.
Proof.
  unfold select, allows, isin. destruct chosen as [|c chosen].
  - symmetry. apply filter_all. reflexivity.
  - reflexivity.
Qed.

Lemma filter_filter {A : Type} (p q : A -> bool) (l : list A) :
  filter q (filter p l) = filter (fun a => p a && q a) l.
Proof.
  induction l as [|a l IH]; cbn [filter].
  - reflexivity.
  - destruct (p a); cbn [filter andb]; [destruct (q a)|]; now rewrite IH.
Qed.

(** X15. The eight filters of the dashboard, applied one after the other,
    keep exactly the rows that pass all of them, in the order of the frame: a
    row must be allowed by every multiselect (any of the chosen values, or
    anything when nothing is chosen) and lie within the position slider. *)
Theorem apply_filters_is_conjunction (sb : Sidebar) (df : list DRow) :
  apply_filters sb df = filter (passes sb) df.
Proof.
  unfold apply_filters. cbv zeta.
  rewrite !select_filter, !filter_filter.
  apply filter_ext. intros r. unfold passes.
  rewrite !andb_assoc. reflexivity.
Qed.

Lemma select_unrestrictive (col : DRow -> string) (chosen : list string)
    (df : list DRow) :
  unrestrictive col chosen df -> select col chosen df = df.
Proof.
  intros [-> | Hall]; [reflexivity|].
  rewrite select_filter. apply filter_all. intros r Hr.
  unfold allows. destruct chosen as [|c chosen]; [reflexivity|].
  apply existsb_exists. exists (col r). split; [now apply Hall|].
  apply String.eqb_refl.
Qed.

(** X16. When, in every multiselect, either nothing or every value that
    occurs in the frame is chosen, and every position lies within the slider,
    the dashboard shows the whole frame: choosing all values of a column is
    the same as choosing none.  In particular the page opens on the whole
    frame when its positions lie in 0..40. *)
Theorem apply_filters_keeps_everything (sb : Sidebar) (df : list DRow) :
  unrestrictive country (country_filter sb) df ->
  unrestrictive platform (platform_filter sb) df ->
  unrestrictive age_group (age_filter sb) df ->
  unrestrictive subscription (sub_filter sb) df ->
  unrestrictive genre (genre_filter sb) df ->
  unrestrictive time_of_day (time_filter sb) df ->
  unrestrictive day_type (daytype_filter sb) df ->
  Forall (fun r => fst (pos_range sb) <= position r <= snd (pos_range sb)) df ->
  apply_filters sb df = df.
Proof.
  intros H1 H2 H3 H4 H5 H6 H7 Hpos. unfold apply_filters. cbv zeta.
  rewrite (select_unrestrictive country _ df H1).
  rewrite (select_unrestrictive platform _ df H2).
  rewrite (select_unrestrictive age_group _ df H3).
  rewrite (select_unrestrictive subscription _ df H4).
  rewrite (select_unrestrictive genre _ df H5).
  rewrite (select_unrestrictive time_of_day _ df H6).
  rewrite (select_unrestrictive day_type _ df H7).
  apply filter_all. intros r Hr. rewrite Forall_forall in Hpos.
  specialize (Hpos r Hr). apply andb_true_iff. split; apply Z.leb_le; lia.
Qed.

End DashboardFacts.

Lemma apply_filters_keeps_everything_witness :
  Dashboard.apply_filters Dashboard.opening_sidebar dashboard_rows = dashboard_rows.
Proof.
  apply (apply_filters_keeps_everything Dashboard.opening_sidebar dashboard_rows);
    try (left; reflexivity).
  repeat constructor; cbn; lia.
Defined.


(** ** The skip model is monotone in every signal *)

Section SkipOrderFacts.
Import Frame SkipModel SkipCases SkipOrder.
Local Open Scope float_scope.

Lemma forall_pair_sound (f : bool -> bool -> bool) :
  forall_pair f = true ->
  forall b1 b2, (b1 = true -> b2 = true) -> f b1 b2 = true.
Proof.
  unfold forall_pair. intros H b1 b2 Himp.
  apply andb_true_iff in H. destruct H as [H Htt].
  apply andb_true_iff in H. destruct H as [Hff Hft].
  destruct b1, b2; try assumption.
  specialize (Himp eq_refl). discriminate.
Qed.

Lemma forall_levels_sound (f : nat -> nat -> bool) :
  forall_levels f = true ->
  forall l1 l2, (l1 <= l2 <= 2)%nat -> f l1 l2 = true.
Proof.
  unfold forall_levels. intros H l1 l2 Hl.
  repeat (apply andb_true_iff in H; destruct H as [H ?]).
  destruct l1 as [|[|[|l1]]], l2 as [|[|[|l2]]]; try assumption; lia.
Qed.

(** The check succeeds; it is stated on the body of [monotone_check], so
    that each pair of outcomes can be instantiated in turn. *)
Lemma monotone_check_ok :
  ltac:(let t := eval unfold monotone_check in (monotone_check = true) in exact t).
Proof. vm_compute. reflexivity. Qed.

(** The score of a row is the score at its tendency level. *)
Lemma skip_score_at_level (row : Row) :
  skip_score row =
  score_at (tendency_level row)
    (cell_in (age_group row) ["13-17"; "18-24"]%string)
    (cell_eqb (subscription row) "free")
    (cell_eqb (country row) "LATAM") (cell_eqb (country row) "EU_UK")
    (String.eqb (time_of_day row) "morning") (String.eqb (location row) "gym")
    (String.eqb (day_type row) "weekend")
    (cell_in (genre row) ["pop"; "latin"]%string)
    (cell_in (genre row) ["classical"; "jazz"]%string)
    (PrimFloat.ltb (energy row) 0.3) (PrimFloat.ltb 0.7 (danceability row)).
Proof.
  rewrite skip_score_tests. unfold tendency_level.
  destruct (cell_eqb (skip_tendency row) "high");
    destruct (cell_eqb (skip_tendency row) "medium"); reflexivity.
Qed.

Lemma tendency_level_le_2 (row : Row) : (tendency_level row <= 2)%nat.
Proof.
  unfold tendency_level.
  destruct (cell_eqb (skip_tendency row) "high");
    destruct (cell_eqb (skip_tendency row) "medium"); lia.
Qed.

(** X18. The skip model is monotone in every signal at once, rounding and
    clamping included: if a row has no lower a tendency than another, fires
    every positive adjustment the other fires and no negative adjustment the
    other does not fire, its skip probability is no lower. *)
Theorem skip_probability_monotone (r1 r2 : Row) :
  no_less_skippable r1 r2 ->
  PrimFloat.leb (compute_skip_probability r1) (compute_skip_probability r2) = true.
Proof.
  intros (Hl & Hag & Hfr & Hla & Heu & Hmo & Hgy & Hwe & Hg1 & Hg2 & Hlo & Hda).
  unfold compute_skip_probability. rewrite !skip_score_at_level.
  pose proof monotone_check_ok as H.
  pose proof (forall_pair_sound _ H _ _ Hag) as H1; cbv beta in H1.
  pose proof (forall_pair_sound _ H1 _ _ Hfr) as H2; cbv beta in H2.
  pose proof (forall_pair_sound _ H2 _ _ Hla) as H3; cbv beta in H3.
  pose proof (forall_pair_sound _ H3 _ _ Heu) as H4; cbv beta in H4.
  pose proof (forall_pair_sound _ H4 _ _ Hmo) as H5; cbv beta in H5.
  pose proof (forall_pair_sound _ H5 _ _ Hgy) as H6; cbv beta in H6.
  pose proof (forall_pair_sound _ H6 _ _ Hwe) as H7; cbv beta in H7.
  pose proof (forall_pair_sound _ H7 _ _ Hg1) as H8; cbv beta in H8.
  pose proof (forall_pair_sound _ H8 _ _ Hg2) as H9; cbv beta in H9.
  pose proof (forall_pair_sound _ H9 _ _ Hlo) as H10; cbv beta in H10.
  pose proof (forall_pair_sound _ H10 _ _ Hda) as H11; cbv beta in H11.
  apply (forall_levels_sound _ H11 (tendency_level r1) (tendency_level r2)).
  split; [exact Hl | apply tendency_level_le_2].
Qed.

End SkipOrderFacts.

Lemma skip_probability_monotone_witness :
  PrimFloat.leb (SkipModel.compute_skip_probability calmer_row)
                (SkipModel.compute_skip_probability stacked_row) = true.
Proof.
  apply (skip_probability_monotone calmer_row stacked_row).
  unfold SkipOrder.no_less_skippable.
  repeat split; try (intros _; reflexivity); try (cbn; lia);
    vm_compute; intros H; exact H.
Defined.

Lemma dataset_items_are_distinct_sessions_witness :
  SequenceDataset.len (SequenceDataset.init short_session 1 50)
  = length (nodup Z.eq_dec (map SequenceDataset.session_id short_session)) /\
  ((exists item,
      SequenceDataset.getitem (SequenceDataset.init short_session 1 50) 0
      = Run.Ok item)
   <-> (0 < SequenceDataset.len (SequenceDataset.init short_session 1 50))%nat).
Proof.
  apply (dataset_items_are_distinct_sessions short_session 1 50 0).
  repeat constructor.
Defined.

(** ** The columns a join attaches *)

Section JoinColumns.
Import Run Generate JoinSpec LookupSpec.

(** In a table with distinct keys, looking up the key of a row of the table
    finds that row. *)
Lemma find_unique {R : Type} (key : R -> Z) (l : list R) (r : R) :
  NoDup (map key l) -> In r l ->
  find (fun r' => key r' =? key r) l = Some r.
Proof.
  induction l as [|a l IH]; cbn [map find]; intros Hnd Hin.
  - contradiction.
  - inversion Hnd as [|? ? Hnotin Hnd']; subst.
    destruct Hin as [-> | Hin].
    + now rewrite Z.eqb_refl.
    + destruct (Z.eqb_spec (key a) (key r)) as [Heq|_].
      * exfalso. apply Hnotin. rewrite Heq. now apply in_map.
      * now apply IH.
Qed.

(** X19. When the user ids and the track ids are distinct, every row the
    joins return carries the columns of its own partners: the user columns
    are those of the user with the row's [user_id], and the track columns
    those of the track with the row's [track_id]. *)
Theorem joined_columns_are_the_partners (events_df : list TrackedEvent)
    (users_df : list User.t) (tracks_df : list Track.t) (rows : list Frame.Row) :
  NoDup (map User.user_id users_df) ->
  NoDup (map Track.track_id tracks_df) ->
  join_stage events_df users_df tracks_df = Ok rows ->
  forall r, In r rows ->
    (forall u, In u users_df -> User.user_id u = Frame.user_id r ->
               user_columns_of u r) /\
    (forall t, In t tracks_df -> Track.track_id t = Frame.track_id r ->
               track_columns_of t r).
Proof.
  intros Hu Ht Hjoin r Hr.
  assert (Hne : events_df <> []) by (intros ->; discriminate).
  rewrite (join_stage_unique events_df users_df tracks_df Hne Hu Ht) in Hjoin.
  injection Hjoin as <-.
  apply in_map_iff in Hr. destruct Hr as [e [<- He]].
  split.
  - intros u Hin Hid. cbn [wide_row Frame.user_id] in Hid.
    rewrite <- Hid, (find_unique User.user_id users_df u Hu Hin).
    unfold user_columns_of. cbn. repeat split.
  - intros t Hin Hid. cbn [wide_row Frame.track_id] in Hid.
    rewrite <- Hid, (find_unique Track.track_id tracks_df t Ht Hin).
    unfold track_columns_of. cbn. repeat split.
Qed.

End JoinColumns.

Lemma joined_columns_are_the_partners_witness :
  (forall u, In u [known_user] ->
     User.user_id u
     = Frame.user_id (Generate.wide_row matched_event (Some known_user)
                        (Some known_track)) ->
     LookupSpec.user_columns_of u
       (Generate.wide_row matched_event (Some known_user) (Some known_track))) /\
  (forall t, In t [known_track] ->
     Track.track_id t
     = Frame.track_id (Generate.wide_row matched_event (Some known_user)
                         (Some known_track)) ->
     LookupSpec.track_columns_of t
       (Generate.wide_row matched_event (Some known_user) (Some known_track))).
Proof.
  apply (joined_columns_are_the_partners [matched_event] [known_user] [known_track]
           [Generate.wide_row matched_event (Some known_user) (Some known_track)]).
  - repeat constructor; cbn; tauto.
  - repeat constructor; cbn; tauto.
  - reflexivity.
  - now left.
Defined.
